(** * ViralGenix: credential store, content store and session flow of app.py

    A shallow embedding of [src/app.py].  The Streamlit script is modelled
    as a function from the persistent state (the SQLite file and
    [st.session_state]) and the widget values of one script run to the
    state after that run.  What lives outside the repository is taken as
    an input of the run: the bcrypt primitives, which may raise, the salt
    drawn by
    [bcrypt.gensalt()], the answer of the generative model and SQLite's
    [CURRENT_TIMESTAMP].  A run starts at [main], past the API-key
    configuration of lines 17-32, which stops the script when it fails. *)

From Stdlib Require Import String Ascii List ZArith Bool Lia.
From Stdlib Require Import Sorting.Sorted Sorting.Permutation.
Import ListNotations.

Local Open Scope string_scope.
Local Open Scope list_scope.
Local Open Scope Z_scope.

(** ** Python values *)

(** A Python [bytes] object.  A Python [str] is represented by the bytes of
    its UTF-8 encoding, so [str.encode('utf-8')] is the identity on the
    representation. *)
Definition bytes := string.

Definition encode_utf8 (s : string) : bytes := s.

(** Truth value of a [str] in a condition: the empty string is false. *)
Definition truthy (s : string) : bool :=
  match s with
  | EmptyString => false
  | String _ _ => true
  end.

(** [needle in hay] on strings. *)
Fixpoint contains (needle hay : string) : bool :=
  String.prefix needle hay
  || match hay with
     | EmptyString => false
     | String _ rest => contains needle rest
     end.

(** ** External collaborators *)

(** The two bcrypt primitives used by the script, [hashpw pw salt] and
    [checkpw pw hashed].  Both may raise [ValueError], which is [None]
    here: from version 5.0 on a password of more than 72 bytes, and in
    [checkpw] a malformed hash.  Before 5.0 only the first 72 bytes of the
    password are read. *)
Class Bcrypt := {
  hashpw : bytes -> bytes -> option bytes;
  checkpw : bytes -> bytes -> option bool
}.

(** The number of password bytes bcrypt takes in. *)
Definition bcrypt_max_bytes : nat := 72.

Definition within_bcrypt_limit (pw : bytes) : Prop :=
  (String.length pw <= bcrypt_max_bytes)%nat.

(** Contract of the bcrypt library, stated where a result needs it.  A
    hash that was made is accepted for its password; among passwords within
    the limit it is accepted for no other; it is never the password. *)
Definition checkpw_accepts `{Bcrypt} : Prop :=
  forall pw salt hashed,
    hashpw pw salt = Some hashed -> checkpw pw hashed = Some true.

Definition checkpw_rejects `{Bcrypt} : Prop :=
  forall pw pw' salt hashed,
    within_bcrypt_limit pw -> within_bcrypt_limit pw' ->
    hashpw pw salt = Some hashed ->
    checkpw pw' hashed = Some true -> pw' = pw.

Definition hashpw_hides `{Bcrypt} : Prop :=
  forall pw salt hashed, hashpw pw salt = Some hashed -> hashed <> pw.

(** Two small instances of the interface on which runs can be evaluated.
    In both the hash is the first byte of the salt followed by password
    bytes.  [toy_bcrypt] raises on a password over the limit, as the
    library does from 5.0 on; [truncating_bcrypt] reads the first 72 bytes
    only, as the library did before. *)
Definition toy_salt_byte (salt : bytes) : ascii :=
  match salt with
  | EmptyString => "$"%char
  | String c _ => c
  end.

Definition over_limit (pw : bytes) : bool :=
  (bcrypt_max_bytes <? String.length pw)%nat.

Definition toy_hashpw (pw salt : bytes) : option bytes :=
  if over_limit pw then None else Some (String (toy_salt_byte salt) pw).

Definition toy_checkpw (pw hashed : bytes) : option bool :=
  if over_limit pw then None
  else match hashed with
       | EmptyString => None
       | String _ rest => Some (String.eqb rest pw)
       end.

Definition toy_bcrypt : Bcrypt :=
  {| hashpw := toy_hashpw; checkpw := toy_checkpw |}.

Definition truncate (pw : bytes) : bytes :=
  String.substring 0 bcrypt_max_bytes pw.

Definition truncating_hashpw (pw salt : bytes) : option bytes :=
  Some (String (toy_salt_byte salt) (truncate pw)).

Definition truncating_checkpw (pw hashed : bytes) : option bool :=
  match hashed with
  | EmptyString => None
  | String _ rest => Some (String.eqb rest (truncate pw))
  end.

Definition truncating_bcrypt : Bcrypt :=
  {| hashpw := truncating_hashpw; checkpw := truncating_checkpw |}.

(** Outcome of [self.model.generate_content(prompt)]: the text of the
    response, or an exception with its message. *)
Inductive ai_response :=
| ai_text (text : string)
| ai_raises (e : string).

(** What one script run draws from outside. *)
Record environment := {
  ai : string -> ai_response;
  gensalt : bytes;
  current_timestamp : Z
}.

(** ** The SQLite file *)

(** [users (id INTEGER PRIMARY KEY, username TEXT UNIQUE, password TEXT)] *)
Record users_row := {
  users_id : Z;
  users_username : string;
  users_password : bytes
}.

(** [contents (id, user_id, tema, artigo, roteiro, legendas, created_at)] *)
Record contents_row := {
  contents_id : Z;
  contents_user_id : Z;
  contents_tema : string;
  contents_artigo : string;
  contents_roteiro : string;
  contents_legendas : string;
  contents_created_at : Z
}.

(** The two tables the script reads and writes, rows in rowid order.  The
    [insights] table is created and never used. *)
Record database := {
  users : list users_row;
  contents : list contents_row
}.

Definition empty_db : database := {| users := []; contents := [] |}.

(** [init_database]: every statement is [CREATE TABLE IF NOT EXISTS], so
    existing rows are left as they are. *)
Definition init_database (db : database) : database := db.

(** A connection.  SQLite checks [FOREIGN KEY] clauses only on a
    connection on which [PRAGMA foreign_keys = ON] was issued. *)
Record connection := { foreign_keys : bool }.

(** [sqlite3.connect('viralgenix.db')]: the script issues no pragma on any
    of its connections. *)
Definition connect : connection := {| foreign_keys := false |}.

Inductive sql_result (A : Type) :=
| SqlOk (a : A)
| IntegrityError.
Arguments SqlOk {A} a.
Arguments IntegrityError {A}.

(** Rowid given to a new row of an [INTEGER PRIMARY KEY] table: 1 in an
    empty table, otherwise one more than the largest in use.  (SQLite
    leaves this sequence only when the largest rowid is 2^63-1.) *)
Definition next_rowid (ids : list Z) : Z :=
  match ids with
  | [] => 1
  | i :: rest => fold_right Z.max i rest + 1
  end.

Definition username_taken (db : database) (name : string) : bool :=
  existsb (fun r => String.eqb (users_username r) name) (users db).

(** [INSERT INTO users (username, password) VALUES (?, ?)] *)
Definition insert_user (db : database) (name : string) (hashed : bytes)
  : sql_result database :=
  if username_taken db name then IntegrityError
  else SqlOk {| users := users db ++
                  [{| users_id := next_rowid (map users_id (users db));
                      users_username := name;
                      users_password := hashed |}];
                contents := contents db |}.

(** [SELECT id, password FROM users WHERE username=?] then [fetchone()] *)
Definition select_user (db : database) (name : string) : option (Z * bytes) :=
  match find (fun r => String.eqb (users_username r) name) (users db) with
  | Some r => Some (users_id r, users_password r)
  | None => None
  end.

Definition user_exists (db : database) (uid : Z) : bool :=
  existsb (fun r => users_id r =? uid) (users db).

(** [INSERT INTO contents (user_id, tema, artigo, roteiro, legendas)
    VALUES (?, ?, ?, ?, ?)]; [created_at] takes its default. *)
Definition insert_content (conn : connection) (db : database) (uid : Z)
    (tema artigo roteiro legendas : string) (now : Z) : sql_result database :=
  if foreign_keys conn && negb (user_exists db uid) then IntegrityError
  else SqlOk {| users := users db;
                contents := contents db ++
                  [{| contents_id := next_rowid (map contents_id (contents db));
                      contents_user_id := uid;
                      contents_tema := tema;
                      contents_artigo := artigo;
                      contents_roteiro := roteiro;
                      contents_legendas := legendas;
                      contents_created_at := now |}] |}.

(** [ORDER BY created_at DESC]: rows with the same timestamp stay in the
    order of the scan, which is rowid order. *)
Fixpoint insert_desc (r : contents_row) (l : list contents_row)
  : list contents_row :=
  match l with
  | [] => [r]
  | x :: rest =>
      if contents_created_at x <=? contents_created_at r
      then r :: x :: rest
      else x :: insert_desc r rest
  end.

Definition order_by_created_at_desc (l : list contents_row)
  : list contents_row :=
  fold_right insert_desc [] l.

(** The rows selected by [WHERE user_id = ... ORDER BY created_at DESC]. *)
Definition select_rows (db : database) (uid : Z) : list contents_row :=
  order_by_created_at_desc
    (filter (fun r => contents_user_id r =? uid) (contents db)).

(** [SELECT tema, created_at FROM contents WHERE user_id = ...
    ORDER BY created_at DESC] *)
Definition select_history (db : database) (uid : Z) : list (string * Z) :=
  map (fun r => (contents_tema r, contents_created_at r)) (select_rows db uid).

(** ** Streamlit *)

(** [st.session_state]: the keys the script uses; [None] is an absent key. *)
Record session_state := {
  logged_in : option bool;
  username : option string;
  user_id : option Z;
  last_generated : option (string * string)
}.

Definition empty_session : session_state :=
  {| logged_in := None; username := None; user_id := None;
     last_generated := None |}.

Inductive message :=
| st_error (text : string)
| st_warning (text : string)
| st_success (text : string).

(** How a function of the script ends: it returns, it calls [st.rerun()],
    or an exception leaves it. *)
Inductive control (A : Type) :=
| Returns (a : A)
| Rerun
| Raises (exn : string).
Arguments Returns {A} a.
Arguments Rerun {A}.
Arguments Raises {A} exn.

Inductive form_choice := ChoiceLogin | ChoiceRegistrar.

(** Widgets of [login_page]: the select box and the two text inputs and the
    submit button of the form it shows. *)
Record login_widgets := {
  choice : form_choice;
  text_username : string;
  text_password : string;
  submitted : bool
}.

(** Widgets of one run of [main]. *)
Record main_widgets := {
  login_form : login_widgets;
  amostra_texto : string;
  publico : string;
  tendencia : string;
  sair : bool;
  tema : string;
  gerar : bool
}.

Definition msg_invalid_credentials : message :=
  st_error "Usuário ou senha inválidos.".
Definition msg_registered : message :=
  st_success "Usuário registrado! Agora você pode fazer login.".
Definition msg_duplicate_username : message :=
  st_error "Esse nome de usuário já existe.".
Definition msg_fill_all_fields : message :=
  st_warning "Por favor, preencha todos os campos.".
Definition msg_missing_tema : message :=
  st_warning "Por favor, insira um tema.".

Definition generation_error_text : string :=
  "Erro ao gerar conteúdo. Verifique suas permissões de API e o faturamento no Google Cloud.".
Definition roteiro_placeholder : string :=
  "Não foi possível gerar o roteiro pois a geração do artigo falhou.".

(** ** Authentication *)

Record login_result := {
  lr_db : database;
  lr_session : session_state;
  lr_messages : list message;
  lr_control : control bool
}.

(** Line 80: [if "logged_in" not in st.session_state: ... = False] *)
Definition default_logged_in (ss : session_state) : session_state :=
  match logged_in ss with
  | Some _ => ss
  | None => {| logged_in := Some false; username := username ss;
               user_id := user_id ss; last_generated := last_generated ss |}
  end.

Definition is_logged_in (ss : session_state) : bool :=
  match logged_in ss with
  | Some b => b
  | None => false
  end.

(** Lines 96-98. *)
Definition set_logged_in (ss : session_state) (name : string) (uid : Z)
  : session_state :=
  {| logged_in := Some true; username := Some name; user_id := Some uid;
     last_generated := last_generated ss |}.

Section Script.
Context {B : Bcrypt}.

(** [user_data and bcrypt.checkpw(password.encode('utf-8'), user_data[1])]:
    [checkpw] is called only when a row was found; [None] when it raises. *)
Definition credentials_ok (user_data : option (Z * bytes)) (password : string)
  : option bool :=
  match user_data with
  | Some (_, hashed) => checkpw (encode_utf8 password) hashed
  | None => Some false
  end.

Definition login_page (db : database) (ss : session_state)
    (w : login_widgets) (salt : bytes) : login_result :=
  let ss := default_logged_in ss in
  if is_logged_in ss then
    {| lr_db := db; lr_session := ss; lr_messages := [];
       lr_control := Returns true |}
  else
    match choice w with
    | ChoiceLogin =>
        if submitted w then
          let user_data := select_user db (text_username w) in
          match credentials_ok user_data (text_password w) with
          | Some true =>
              {| lr_db := db;
                 lr_session :=
                   match user_data with
                   | Some (uid, _) => set_logged_in ss (text_username w) uid
                   | None => ss
                   end;
                 lr_messages := [];
                 lr_control := Rerun |}
          | Some false =>
              {| lr_db := db; lr_session := ss;
                 lr_messages := [msg_invalid_credentials];
                 lr_control := Returns (is_logged_in ss) |}
          | None =>
              {| lr_db := db; lr_session := ss; lr_messages := [];
                 lr_control := Raises "ValueError" |}
          end
        else
          {| lr_db := db; lr_session := ss; lr_messages := [];
             lr_control := Returns (is_logged_in ss) |}
    | ChoiceRegistrar =>
        if submitted w then
          if truthy (text_username w) && truthy (text_password w) then
            match hashpw (encode_utf8 (text_password w)) salt with
            | Some hashed_password =>
                match insert_user db (text_username w) hashed_password with
                | SqlOk db' =>
                    {| lr_db := db'; lr_session := ss;
                       lr_messages := [msg_registered];
                       lr_control := Returns (is_logged_in ss) |}
                | IntegrityError =>
                    {| lr_db := db; lr_session := ss;
                       lr_messages := [msg_duplicate_username];
                       lr_control := Returns (is_logged_in ss) |}
                end
            | None =>
                {| lr_db := db; lr_session := ss; lr_messages := [];
                   lr_control := Raises "ValueError" |}
            end
          else
            {| lr_db := db; lr_session := ss;
               lr_messages := [msg_fill_all_fields];
               lr_control := Returns (is_logged_in ss) |}
        else
          {| lr_db := db; lr_session := ss; lr_messages := [];
             lr_control := Returns (is_logged_in ss) |}
    end.

(** The two operations of the credential store as the forms expose them. *)
Definition register (db : database) (ss : session_state)
    (name password : string) (salt : bytes) : login_result :=
  login_page db ss
    {| choice := ChoiceRegistrar; text_username := name;
       text_password := password; submitted := true |} salt.

Definition verify (db : database) (ss : session_state)
    (name password : string) : login_result :=
  login_page db ss
    {| choice := ChoiceLogin; text_username := name;
       text_password := password; submitted := true |} EmptyString.

End Script.

(** ** Content generation *)

(** [ViralContentGenerator.generate_content]: the text and what it shows. *)
Definition generate_content (env : environment) (prompt : string)
  : string * list message :=
  match ai env prompt with
  | ai_text text => (text, [])
  | ai_raises e =>
      (generation_error_text, [st_error ("Erro ao contatar a IA: " ++ e)])
  end.

Definition prompt_artigo (w : main_widgets) : string :=
  "Escreva um artigo de blog otimizado para SEO sobre '" ++ tema w
  ++ "' para um público de '" ++ publico w
  ++ "', conectando com a tendência '" ++ tendencia w
  ++ "' e com o tom de '" ++ amostra_texto w ++ "'.".

Definition prompt_roteiro (artigo_gerado : string) : string :=
  "Baseado no seguinte artigo, crie um roteiro de vídeo para o YouTube de 10 minutos, com marcações para cortes virais. Artigo: "
  ++ artigo_gerado.

(** Lines 145-151: the texts, the messages shown and the prompts sent. *)
Definition generate_texts (env : environment) (w : main_widgets)
  : string * string * list message * list string :=
  let '(artigo_gerado, shown1) := generate_content env (prompt_artigo w) in
  if negb (contains "ERRO_IA:" artigo_gerado) then
    let '(roteiro_gerado, shown2) :=
      generate_content env (prompt_roteiro artigo_gerado) in
    (artigo_gerado, roteiro_gerado, shown1 ++ shown2,
     [prompt_artigo w; prompt_roteiro artigo_gerado])
  else
    (artigo_gerado, roteiro_placeholder, shown1, [prompt_artigo w]).

Record run_result := {
  r_db : database;
  r_session : session_state;
  r_messages : list message;
  r_ai_calls : list string;
  r_history : option (list (string * Z));
  r_control : control unit
}.

(** Lines 173-182: the history expander. *)
Definition history (db : database) (ss : session_state)
  : option (list (string * Z)) :=
  match user_id ss with
  | Some uid => Some (select_history db uid)
  | None => None
  end.

Definition set_last_generated (ss : session_state) (artigo roteiro : string)
  : session_state :=
  {| logged_in := logged_in ss; username := username ss;
     user_id := user_id ss; last_generated := Some (artigo, roteiro) |}.

Section Main.
Context {B : Bcrypt}.

(** Lines 141-161, after the sidebar. *)
Definition generate_button (db : database) (ss : session_state)
    (w : main_widgets) (env : environment) : run_result :=
  if gerar w then
    if truthy (tema w) then
      let '(artigo_gerado, roteiro_gerado, shown, calls) :=
        generate_texts env w in
      match user_id ss with
      | None =>
          {| r_db := db; r_session := ss; r_messages := shown;
             r_ai_calls := calls; r_history := None;
             r_control := Raises "AttributeError" |}
      | Some uid =>
          match insert_content connect db uid (tema w) artigo_gerado
                  roteiro_gerado "" (current_timestamp env) with
          | SqlOk db' =>
              {| r_db := db';
                 r_session := set_last_generated ss artigo_gerado roteiro_gerado;
                 r_messages := shown; r_ai_calls := calls; r_history := None;
                 r_control := Rerun |}
          | IntegrityError =>
              {| r_db := db; r_session := ss; r_messages := shown;
                 r_ai_calls := calls; r_history := None;
                 r_control := Raises "IntegrityError" |}
          end
      end
    else
      {| r_db := db; r_session := ss; r_messages := [msg_missing_tema];
         r_ai_calls := []; r_history := history db ss;
         r_control := Returns tt |}
  else
    {| r_db := db; r_session := ss; r_messages := []; r_ai_calls := [];
       r_history := history db ss; r_control := Returns tt |}.

(** One run of the script. *)
Definition main (db : database) (ss : session_state) (w : main_widgets)
    (env : environment) : run_result :=
  let lr := login_page (init_database db) ss (login_form w) (gensalt env) in
  match lr_control lr with
  | Returns true =>
      match username (lr_session lr) with
      | None =>
          {| r_db := lr_db lr; r_session := lr_session lr;
             r_messages := lr_messages lr; r_ai_calls := [];
             r_history := None; r_control := Raises "AttributeError" |}
      | Some _ =>
          if sair w then
            {| r_db := lr_db lr; r_session := empty_session;
               r_messages := lr_messages lr; r_ai_calls := [];
               r_history := None; r_control := Rerun |}
          else
            let r := generate_button (lr_db lr) (lr_session lr) w env in
            {| r_db := r_db r; r_session := r_session r;
               r_messages := lr_messages lr ++ r_messages r;
               r_ai_calls := r_ai_calls r; r_history := r_history r;
               r_control := r_control r |}
      end
  | Returns false =>
      {| r_db := lr_db lr; r_session := lr_session lr;
         r_messages := lr_messages lr; r_ai_calls := []; r_history := None;
         r_control := Returns tt |}
  | Rerun =>
      {| r_db := lr_db lr; r_session := lr_session lr;
         r_messages := lr_messages lr; r_ai_calls := []; r_history := None;
         r_control := Rerun |}
  | Raises exn =>
      {| r_db := lr_db lr; r_session := lr_session lr;
         r_messages := lr_messages lr; r_ai_calls := []; r_history := None;
         r_control := Raises exn |}
  end.

(** The state after a sequence of script runs. *)
Fixpoint run_script (runs : list (main_widgets * environment))
    (db : database) (ss : session_state) : database * session_state :=
  match runs with
  | [] => (db, ss)
  | (w, env) :: rest =>
      let r := main db ss w env in
      run_script rest (r_db r) (r_session r)
  end.

End Main.

(** ** Vocabulary of the properties *)

(** The two states of the session authenticator. *)
Definition anonymous (ss : session_state) : Prop := is_logged_in ss = false.

Definition authenticated (ss : session_state) : Prop :=
  logged_in ss = Some true /\ username ss <> None /\ user_id ss <> None.

(** The byte lies between two values. *)
Definition byte_in (lo hi : nat) (a : ascii) : bool :=
  ((lo <=? nat_of_ascii a) && (nat_of_ascii a <=? hi))%nat.

Definition continuation_byte (a : ascii) : bool := byte_in 128 191 a.

(** The bytes are the UTF-8 encoding of one character of a [str]: one to
    four bytes, well formed. *)
Definition utf8_char (s : string) : bool :=
  match s with
  | String a EmptyString => byte_in 0 127 a
  | String a (String b EmptyString) =>
      byte_in 194 223 a && continuation_byte b
  | String a (String b (String c EmptyString)) =>
      (byte_in 224 224 a && byte_in 160 191 b
       || byte_in 225 236 a && continuation_byte b
       || byte_in 237 237 a && byte_in 128 159 b
       || byte_in 238 239 a && continuation_byte b)
      && continuation_byte c
  | String a (String b (String c (String d EmptyString))) =>
      (byte_in 240 240 a && byte_in 144 191 b
       || byte_in 241 243 a && continuation_byte b
       || byte_in 244 244 a && byte_in 128 143 b)
      && continuation_byte c && continuation_byte d
  | _ => false
  end.

(** One character of the first string replaced by another, removed, or one
    character added; a character is the one to four bytes of its
    encoding. *)
Inductive single_char_mutation : string -> string -> Prop :=
| mutation_replace before c c' after :
    utf8_char c = true -> utf8_char c' = true -> c <> c' ->
    single_char_mutation (before ++ c ++ after) (before ++ c' ++ after)
| mutation_delete before c after :
    utf8_char c = true ->
    single_char_mutation (before ++ c ++ after) (before ++ after)
| mutation_insert before c after :
    utf8_char c = true ->
    single_char_mutation (before ++ after) (before ++ c ++ after).

Definition usernames_unique (db : database) : Prop :=
  NoDup (map users_username (users db)).

Definition usernames_nonempty (db : database) : Prop :=
  Forall (fun r => users_username r <> "") (users db).

(** Number of accounts carrying a user name. *)
Definition accounts_named (db : database) (name : string) : nat :=
  length (filter (fun r => String.eqb (users_username r) name) (users db)).

(** Timestamps from the latest to the earliest. *)
Definition descending (l : list Z) : Prop := StronglySorted Z.ge l.

(** The result of a login attempt that was turned down. *)
Definition login_refused (db : database) (ss : session_state) : login_result :=
  {| lr_db := db; lr_session := default_logged_in ss;
     lr_messages := [msg_invalid_credentials];
     lr_control := Returns false |}.

(** The result of a form submission in which bcrypt raised. *)
Definition bcrypt_raised (db : database) (ss : session_state) : login_result :=
  {| lr_db := db; lr_session := default_logged_in ss; lr_messages := [];
     lr_control := Raises "ValueError" |}.

(** The result of a login that was accepted for the row with id [uid]. *)
Definition login_accepted (db : database) (ss : session_state)
    (name : string) (uid : Z) : login_result :=
  {| lr_db := db; lr_session := set_logged_in (default_logged_in ss) name uid;
     lr_messages := []; lr_control := Rerun |}.

(** The row [register] writes. *)
Definition registered_row (db : database) (name : string) (hashed : bytes)
  : users_row :=
  {| users_id := next_rowid (map users_id (users db));
     users_username := name;
     users_password := hashed |}.

(** The row the generation button writes. *)
Definition generated_row (db : database) (uid : Z)
    (tema artigo roteiro legendas : string) (now : Z) : contents_row :=
  {| contents_id := next_rowid (map contents_id (contents db));
     contents_user_id := uid;
     contents_tema := tema;
     contents_artigo := artigo;
     contents_roteiro := roteiro;
     contents_legendas := legendas;
     contents_created_at := now |}.

(** Every stored password is a bcrypt hash of a non-empty password. *)
Definition passwords_hashed `{Bcrypt} (db : database) : Prop :=
  Forall (fun r => exists password salt,
              password <> ""
              /\ hashpw (encode_utf8 password) salt
                 = Some (users_password r))
         (users db).

(** The [user_id] of the session and of every content row is the id of a
    row of the users table. *)
Definition owners_exist (db : database) (ss : session_state) : Prop :=
  (forall uid, user_id ss = Some uid -> user_exists db uid = true)
  /\ Forall (fun c => user_exists db (contents_user_id c) = true)
            (contents db).

(** ** A sample session

    Alice registers and logs in; the model is out of quota for article
    prompts and answers script prompts. *)

Definition idle_form : login_widgets :=
  {| choice := ChoiceLogin; text_username := ""; text_password := "";
     submitted := false |}.

Definition sample_register : main_widgets :=
  {| login_form := {| choice := ChoiceRegistrar; text_username := "alice";
                      text_password := "secret1"; submitted := true |};
     amostra_texto := ""; publico := "Geral"; tendencia := "";
     sair := false; tema := ""; gerar := false |}.

Definition sample_login : main_widgets :=
  {| login_form := {| choice := ChoiceLogin; text_username := "alice";
                      text_password := "secret1"; submitted := true |};
     amostra_texto := ""; publico := "Geral"; tendencia := "";
     sair := false; tema := ""; gerar := false |}.

Definition sample_generate (topic : string) : main_widgets :=
  {| login_form := idle_form;
     amostra_texto := ""; publico := "Geral"; tendencia := "";
     sair := false; tema := topic; gerar := true |}.

Definition sample_ai (prompt : string) : ai_response :=
  if String.prefix "Escreva" prompt then ai_raises "quota"
  else ai_text "ROTEIRO".

Definition sample_env (now : Z) : environment :=
  {| ai := sample_ai; gensalt := "s"; current_timestamp := now |}.

Definition sample_runs : list (main_widgets * environment) :=
  [(sample_register, sample_env 10); (sample_login, sample_env 20)].

Definition sample_db : database :=
  {| users := [{| users_id := 1; users_username := "alice";
                  users_password := "ssecret1" |}];
     contents := [] |}.

Definition sample_session : session_state :=
  {| logged_in := Some true; username := Some "alice"; user_id := Some 1;
     last_generated := None |}.

(** A password of 73 bytes, and the same with its last character
    changed. *)
Definition long_password : string :=
  "aaaaaaaaaaaaaaaaaaaaaaaaaaaaaaaaaaaaaaaaaaaaaaaaaaaaaaaaaaaaaaaaaaaaaaaab".


(** A store in which Alice already has one content row, written at 100. *)
Definition sample_db_one_row : database :=
  {| users := users sample_db;
     contents := [{| contents_id := 1; contents_user_id := 1;
                     contents_tema := "a"; contents_artigo := "artigo a";
                     contents_roteiro := "roteiro a"; contents_legendas := "";
                     contents_created_at := 100 |}] |}.

(** ** Vocabulary of the properties of whole runs *)

(** The widgets of a run with another login form. *)
Definition with_login_form (w : main_widgets) (f : login_widgets)
  : main_widgets :=
  {| login_form := f; amostra_texto := amostra_texto w;
     publico := publico w; tendencia := tendencia w; sair := sair w;
     tema := tema w; gerar := gerar w |}.

(** A run that ended in an exception. *)
Definition raised {A : Type} (c : control A) : bool :=
  match c with
  | Raises _ => true
  | _ => false
  end.

(** The text holds the marker line 147 looks for. *)
Definition has_marker (text : string) : Prop :=
  exists before after, text = (before ++ "ERRO_IA:" ++ after)%string.

(** A logged-in session carries the name and the id of one row of the
    users table. *)
Definition session_identity (db : database) (ss : session_state) : Prop :=
  logged_in ss = Some true ->
  exists r, In r (users db)
            /\ username ss = Some (users_username r)
            /\ user_id ss = Some (users_id r).

(** The texts kept for the results panel belong to a logged-in session and
    are those of a content row of its user. *)
Definition results_of_session (db : database) (ss : session_state) : Prop :=
  forall artigo roteiro,
    last_generated ss = Some (artigo, roteiro) ->
    logged_in ss = Some true
    /\ exists uid c,
         user_id ss = Some uid /\ In c (contents db)
         /\ contents_user_id c = uid
         /\ contents_artigo c = artigo /\ contents_roteiro c = roteiro.

(** Row ids are positive and pairwise distinct in both tables. *)
Definition row_ids_distinct (db : database) : Prop :=
  NoDup (map users_id (users db))
  /\ Forall (fun i => 1 <= i) (map users_id (users db))
  /\ NoDup (map contents_id (contents db))
  /\ Forall (fun i => 1 <= i) (map contents_id (contents db)).

(** No stored user name is empty, and every content row has a topic and
    empty captions. *)
Definition rows_wellformed (db : database) : Prop :=
  Forall (fun r => users_username r <> "") (users db)
  /\ Forall (fun c => contents_tema c <> "" /\ contents_legendas c = "")
            (contents db).

(** Bob registers while Alice is logged in elsewhere, then Alice generates
    two texts, one second apart. *)
Definition sample_register_bob : main_widgets :=
  {| login_form := {| choice := ChoiceRegistrar; text_username := "bob";
                      text_password := "hunter2"; submitted := true |};
     amostra_texto := ""; publico := "Geral"; tendencia := "";
     sair := false; tema := ""; gerar := false |}.

Definition sample_idle : main_widgets :=
  {| login_form := idle_form;
     amostra_texto := ""; publico := "Geral"; tendencia := "";
     sair := false; tema := ""; gerar := false |}.

Definition sample_logout : main_widgets :=
  {| login_form := idle_form;
     amostra_texto := ""; publico := "Geral"; tendencia := "";
     sair := true; tema := "t"; gerar := true |}.

(** A model that writes an article and a script. *)
Definition writing_ai (prompt : string) : ai_response :=
  if String.prefix "Escreva" prompt then ai_text "ARTIGO"
  else ai_text "ROTEIRO".

Definition writing_env (now : Z) : environment :=
  {| ai := writing_ai; gensalt := "s"; current_timestamp := now |}.

(** A model whose article carries the marker. *)
Definition marking_ai (prompt : string) : ai_response :=
  if String.prefix "Escreva" prompt then ai_text "ERRO_IA: sem resposta"
  else ai_text "ROTEIRO".

Definition marking_env (now : Z) : environment :=
  {| ai := marking_ai; gensalt := "s"; current_timestamp := now |}.

(** A store in which Alice has two content rows, written at 100 and 101. *)
Definition sample_db_two_rows : database :=
  {| users := users sample_db;
     contents := contents sample_db_one_row
       ++ [{| contents_id := 2; contents_user_id := 1;
              contents_tema := "b"; contents_artigo := "artigo b";
              contents_roteiro := "roteiro b"; contents_legendas := "";
              contents_created_at := 101 |}] |}.

(** ** Python values: basic facts *)

Lemma truthy_true_iff (s : string) : truthy s = true <-> s <> "".
Proof.
  destruct s; simpl; split; intro H; congruence.
Qed.

Lemma truthy_false_iff (s : string) : truthy s = false <-> s = "".
Proof.
  destruct s; simpl; split; intro H; congruence.
Qed.






(** ** The users table *)

Lemma username_taken_select_user (db : database) (name : string) :
  username_taken db name = false <-> select_user db name = None.
Proof.
  unfold username_taken, select_user.
  induction (users db) as [| r l IH]; simpl.
  - tauto.
  - destruct (String.eqb (users_username r) name); simpl.
    + split; discriminate.
    + exact IH.
Qed.

Lemma username_taken_In (db : database) (name : string) :
  username_taken db name = true <-> In name (map users_username (users db)).
Proof.
  unfold username_taken. rewrite existsb_exists, in_map_iff.
  split; intros (r & H1 & H2); exists r.
  - split; [now apply String.eqb_eq | exact H1].
  - split; [exact H2 | now apply String.eqb_eq].
Qed.

Lemma insert_user_taken (db : database) (name : string) (hashed : bytes) :
  username_taken db name = true -> insert_user db name hashed = IntegrityError.
Proof.
  unfold insert_user. now intros ->.
Qed.

Lemma insert_user_fresh (db : database) (name : string) (hashed : bytes) :
  username_taken db name = false ->
  insert_user db name hashed =
    SqlOk {| users := users db ++
               [{| users_id := next_rowid (map users_id (users db));
                   users_username := name;
                   users_password := hashed |}];
             contents := contents db |}.
Proof.
  unfold insert_user. now intros ->.
Qed.

Lemma find_app_none {A : Type} (f : A -> bool) (l l' : list A) :
  find f l = None -> find f (l ++ l') = find f l'.
Proof.
  induction l as [| x l IH]; simpl; [reflexivity |].
  destruct (f x); [discriminate | exact IH].
Qed.

Lemma select_user_after_insert (db db' : database) (name : string)
    (hashed : bytes) :
  insert_user db name hashed = SqlOk db' ->
  select_user db' name =
    Some (next_rowid (map users_id (users db)), hashed).
Proof.
  unfold insert_user.
  destruct (username_taken db name) eqn:Hfresh; [discriminate |].
  intros [= <-]. unfold select_user; simpl.
  apply username_taken_select_user in Hfresh. unfold select_user in Hfresh.
  rewrite find_app_none.
  - simpl. now rewrite String.eqb_refl.
  - destruct (find _ (users db)); [discriminate | reflexivity].
Qed.

(** ** The session authenticator *)

Lemma default_logged_in_anonymous (ss : session_state) :
  anonymous ss -> is_logged_in (default_logged_in ss) = false.
Proof.
  unfold anonymous, default_logged_in, is_logged_in.
  destruct (logged_in ss) as [b |] eqn:E; simpl.
  - now rewrite E.
  - reflexivity.
Qed.

Lemma default_logged_in_keeps_anonymous (ss : session_state) :
  anonymous ss -> anonymous (default_logged_in ss).
Proof. exact (default_logged_in_anonymous ss). Qed.

Lemma select_user_row (db : database) (name : string) (uid : Z)
    (hashed : bytes) :
  select_user db name = Some (uid, hashed) ->
  exists r, In r (users db) /\ users_username r = name
            /\ users_id r = uid /\ users_password r = hashed.
Proof.
  unfold select_user.
  destruct (find _ (users db)) as [r |] eqn:Hfind; [| discriminate].
  intros [= <- <-]. apply find_some in Hfind. destruct Hfind as [Hin Heq].
  exists r. repeat split; [exact Hin | now apply String.eqb_eq].
Qed.

Lemma select_user_none (db : database) (name : string) :
  select_user db name = None <-> ~ In name (map users_username (users db)).
Proof.
  rewrite <- username_taken_select_user, <- username_taken_In.
  destruct (username_taken db name); split; congruence.
Qed.

(** Under the UNIQUE constraint a row is the one its name selects. *)
Lemma select_user_unique (db : database) (r : users_row) :
  usernames_unique db -> In r (users db) ->
  select_user db (users_username r) = Some (users_id r, users_password r).
Proof.
  unfold usernames_unique, select_user.
  induction (users db) as [| x rest IH]; simpl; [intros _ [] |].
  intros Hnodup Hin. inversion Hnodup as [| ? ? Hnotin Hrest]; subst.
  destruct (String.eqb (users_username x) (users_username r)) eqn:Heq.
  - apply String.eqb_eq in Heq. destruct Hin as [-> | Hin]; [reflexivity |].
    exfalso. apply Hnotin. rewrite Heq. now apply in_map.
  - destruct Hin as [-> | Hin]; [now rewrite String.eqb_refl in Heq |].
    now apply IH.
Qed.

Section Credentials.
Context {B : Bcrypt}.

(** What the registration form does in an anonymous session. *)
Lemma register_anonymous (db : database) (ss : session_state)
    (name password : string) (salt : bytes) :
  anonymous ss ->
  register db ss name password salt =
    if truthy name && truthy password then
      match hashpw (encode_utf8 password) salt with
      | Some hashed =>
          match insert_user db name hashed with
          | SqlOk db' =>
              {| lr_db := db'; lr_session := default_logged_in ss;
                 lr_messages := [msg_registered];
                 lr_control := Returns false |}
          | IntegrityError =>
              {| lr_db := db; lr_session := default_logged_in ss;
                 lr_messages := [msg_duplicate_username];
                 lr_control := Returns false |}
          end
      | None => bcrypt_raised db ss
      end
    else
      {| lr_db := db; lr_session := default_logged_in ss;
         lr_messages := [msg_fill_all_fields]; lr_control := Returns false |}.
Proof.
  intro Hanon. unfold register, login_page, bcrypt_raised; simpl.
  rewrite (default_logged_in_anonymous ss Hanon).
  destruct (truthy name && truthy password); [| reflexivity].
  destruct (hashpw (encode_utf8 password) salt) as [hashed |];
    [| reflexivity].
  now destruct (insert_user db name hashed).
Qed.

(** What the login form does in an anonymous session. *)
Lemma verify_anonymous (db : database) (ss : session_state)
    (name password : string) :
  anonymous ss ->
  verify db ss name password =
    match select_user db name with
    | Some (uid, hashed) =>
        match checkpw (encode_utf8 password) hashed with
        | Some true => login_accepted db ss name uid
        | Some false => login_refused db ss
        | None => bcrypt_raised db ss
        end
    | None => login_refused db ss
    end.
Proof.
  intro Hanon.
  unfold verify, login_page, login_refused, bcrypt_raised, login_accepted.
  simpl. rewrite (default_logged_in_anonymous ss Hanon).
  destruct (select_user db name) as [[uid hashed] |]; simpl; [| reflexivity].
  now destruct (checkpw (encode_utf8 password) hashed) as [[|] |].
Qed.


(** C3, as amended.  In an anonymous session, for a user name and a
    password on which [checkpw] returns, a login attempt is refused exactly
    when no row of the users table carries the user name or [checkpw]
    turns the password down for the row that does.  A refused attempt has
    one result, [login_refused], whatever the cause: the same message, the
    same session, an untouched database.  An attempt that is not refused
    logs in under the id of the row, and a user name without a row is
    refused whatever the password. *)
Theorem verify_invalid_credentials
    (db : database) (ss : session_state) (name password : string) :
  anonymous ss ->
  usernames_unique db ->
  (forall r, In r (users db) -> users_username r = name ->
             checkpw (encode_utf8 password) (users_password r) <> None) ->
  let v := verify db ss name password in
  (v = login_refused db ss <->
     ~ In name (map users_username (users db))
     \/ exists r,
          In r (users db) /\ users_username r = name
          /\ checkpw (encode_utf8 password) (users_password r) = Some false)
  /\ (v = login_refused db ss
      \/ exists r,
           In r (users db) /\ users_username r = name
           /\ checkpw (encode_utf8 password) (users_password r) = Some true
           /\ v = login_accepted db ss name (users_id r))
  /\ (~ In name (map users_username (users db)) -> v = login_refused db ss).
Proof.
  intros Hanon Huniq Hreturns v. unfold v.
  rewrite (verify_anonymous _ _ _ _ Hanon).
  destruct (select_user db name) as [[uid hashed] |] eqn:Hsel.
  - destruct (select_user_row _ _ _ _ Hsel) as (r & Hin & Hrname & Hrid & Hrpw).
    assert (Hpresent : In name (map users_username (users db))).
    { rewrite <- Hrname. now apply in_map. }
    assert (Hsame : forall r', In r' (users db) -> users_username r' = name ->
                               users_password r' = hashed).
    { intros r' Hin' Hname'.
      pose proof (select_user_unique db r' Huniq Hin') as E.
      rewrite Hname', Hsel in E. now injection E. }
    specialize (Hreturns r Hin Hrname). rewrite Hrpw in Hreturns.
    destruct (checkpw (encode_utf8 password) hashed) as [[|] |] eqn:Hcheck;
      [| | congruence].
    + split; [| split].
      * split; [discriminate |].
        intros [Habsent | (r' & Hin' & Hname' & Hno)]; [contradiction |].
        rewrite (Hsame r' Hin' Hname') in Hno. congruence.
      * right. exists r. rewrite Hrpw, Hrid. now repeat split.
      * contradiction.
    + split; [| split].
      * split; [| reflexivity]. intros _. right. exists r.
        rewrite Hrpw. now repeat split.
      * now left.
      * reflexivity.
  - split; [| split].
    + split; [| reflexivity]. intros _. left. now apply select_user_none.
    + now left.
    + reflexivity.
Qed.

(** C7.  A registration submitted from an anonymous session leaves the
    session anonymous whether it succeeds, meets a taken user name or is
    incomplete: no identity is set, and [login_page] returns [False] unless
    [hashpw] raised. *)
Theorem register_stays_anonymous
    (db : database) (ss : session_state) (name password : string)
    (salt : bytes) :
  anonymous ss ->
  let reg := register db ss name password salt in
  lr_session reg = default_logged_in ss
  /\ anonymous (lr_session reg)
  /\ logged_in (lr_session reg) <> Some true
  /\ username (lr_session reg) = username ss
  /\ user_id (lr_session reg) = user_id ss
  /\ (lr_control reg = Returns false
      \/ lr_control reg = Raises "ValueError"
         /\ hashpw (encode_utf8 password) salt = None).
Proof.
  intros Hanon reg.
  assert (Hsess : lr_session reg = default_logged_in ss
                  /\ (lr_control reg = Returns false
                      \/ lr_control reg = Raises "ValueError"
                         /\ hashpw (encode_utf8 password) salt = None)).
  { unfold reg. rewrite (register_anonymous _ _ _ _ _ Hanon).
    destruct (truthy name && truthy password); [| split; [| left]; easy].
    destruct (hashpw (encode_utf8 password) salt) as [hashed |];
      [| split; [| right]; easy].
    destruct (insert_user db name hashed); split; try reflexivity; now left. }
  destruct Hsess as [Hsess Hctl]. rewrite Hsess.
  pose proof (default_logged_in_anonymous ss Hanon) as Hstill.
  repeat split; try assumption.
  - unfold is_logged_in in Hstill. intro E. rewrite E in Hstill. discriminate.
  - unfold default_logged_in. now destruct (logged_in ss).
  - unfold default_logged_in. now destruct (logged_in ss).
Qed.

(** C9.  A registration submitted with an empty user name or an empty
    password only shows the fill-all-fields warning: the database is left
    as it was, so no account row is written. *)
Theorem register_empty_field
    (db : database) (ss : session_state) (name password : string)
    (salt : bytes) :
  anonymous ss ->
  name = "" \/ password = "" ->
  let reg := register db ss name password salt in
  lr_messages reg = [msg_fill_all_fields]
  /\ lr_db reg = db
  /\ users (lr_db reg) = users db.
Proof.
  intros Hanon Hempty reg. unfold reg.
  rewrite (register_anonymous _ _ _ _ _ Hanon).
  assert (Hguard : truthy name && truthy password = false).
  { destruct Hempty as [-> | ->]; simpl; [reflexivity |].
    apply andb_false_r. }
  rewrite Hguard. now repeat split.
Qed.

End Credentials.

(** ** What one script run does to the two tables *)

Section Runs.
Context {B : Bcrypt}.

Lemma login_page_contents (db : database) (ss : session_state)
    (w : login_widgets) (salt : bytes) :
  contents (lr_db (login_page db ss w salt)) = contents db.
Proof.
  unfold login_page.
  destruct (is_logged_in (default_logged_in ss)); [reflexivity |].
  destruct (choice w), (submitted w); try reflexivity.
  - now destruct (credentials_ok _ _) as [[|] |].
  - destruct (truthy (text_username w) && truthy (text_password w));
      [| reflexivity].
    destruct (hashpw _ salt) as [hashed |]; [| reflexivity].
    unfold insert_user. now destruct (username_taken db (text_username w)).
Qed.

(** The users table changes only by a successful registration, which adds
    one row for a non-empty free user name with the hash of a non-empty
    password. *)
Lemma login_page_users (db : database) (ss : session_state)
    (w : login_widgets) (salt : bytes) :
  users (lr_db (login_page db ss w salt)) = users db
  \/ exists hashed,
       text_username w <> "" /\ text_password w <> ""
       /\ hashpw (encode_utf8 (text_password w)) salt = Some hashed
       /\ username_taken db (text_username w) = false
       /\ users (lr_db (login_page db ss w salt))
          = users db ++ [registered_row db (text_username w) hashed].
Proof.
  unfold login_page.
  destruct (is_logged_in (default_logged_in ss)); [now left |].
  destruct (choice w), (submitted w); try (now left).
  - left. now destruct (credentials_ok _ _) as [[|] |].
  - destruct (truthy (text_username w)) eqn:Hu; [| now left].
    destruct (truthy (text_password w)) eqn:Hp; [| now left].
    simpl.
    destruct (hashpw _ salt) as [hashed |] eqn:Hhash; [| now left].
    unfold insert_user.
    destruct (username_taken db (text_username w)) eqn:Ht; [now left |].
    right. exists hashed. repeat split; try (now apply truthy_true_iff).
Qed.

(** The session a run of [login_page] leaves: the one it found, with
    [logged_in] defaulted, or the one of a user whose row was selected. *)
Lemma login_page_session (db : database) (ss : session_state)
    (w : login_widgets) (salt : bytes) :
  lr_session (login_page db ss w salt) = default_logged_in ss
  \/ exists uid hashed,
       select_user db (text_username w) = Some (uid, hashed)
       /\ lr_db (login_page db ss w salt) = db
       /\ lr_session (login_page db ss w salt)
          = set_logged_in (default_logged_in ss) (text_username w) uid.
Proof.
  unfold login_page.
  destruct (is_logged_in (default_logged_in ss)); [now left |].
  destruct (choice w), (submitted w); try (now left).
  - destruct (select_user db (text_username w)) as [[uid hashed] |];
      simpl; [| now left].
    destruct (checkpw _ hashed) as [[|] |]; try (now left).
    right. now exists uid, hashed.
  - destruct (truthy (text_username w) && truthy (text_password w));
      [| now left].
    destruct (hashpw _ salt) as [hashed |]; [| now left].
    now destruct (insert_user db (text_username w) _); left.
Qed.

Lemma generate_button_users (db : database) (ss : session_state)
    (w : main_widgets) (env : environment) :
  users (r_db (generate_button db ss w env)) = users db.
Proof.
  unfold generate_button.
  destruct (gerar w); [| reflexivity].
  destruct (truthy (tema w)); [| reflexivity].
  destruct (generate_texts env w) as [[[artigo roteiro] shown] calls].
  now destruct (user_id ss).
Qed.

(** The contents table changes only by the generation button, which adds
    one row under the [user_id] of the session. *)
Lemma generate_button_contents (db : database) (ss : session_state)
    (w : main_widgets) (env : environment) :
  contents (r_db (generate_button db ss w env)) = contents db
  \/ exists uid artigo roteiro,
       user_id ss = Some uid
       /\ contents (r_db (generate_button db ss w env))
          = contents db
            ++ [generated_row db uid (tema w) artigo roteiro ""
                  (current_timestamp env)].
Proof.
  unfold generate_button.
  destruct (gerar w); [| now left].
  destruct (truthy (tema w)); [| now left].
  destruct (generate_texts env w) as [[[artigo roteiro] shown] calls].
  destruct (user_id ss) as [uid |]; [| now left].
  right. now exists uid, artigo, roteiro.
Qed.

Lemma generate_button_user_id (db : database) (ss : session_state)
    (w : main_widgets) (env : environment) :
  user_id (r_session (generate_button db ss w env)) = user_id ss.
Proof.
  unfold generate_button.
  destruct (gerar w); [| reflexivity].
  destruct (truthy (tema w)); [| reflexivity].
  destruct (generate_texts env w) as [[[artigo roteiro] shown] calls].
  destruct (user_id ss) as [uid |] eqn:Huid; simpl; congruence.
Qed.

(** A run of [main] seen through its two parts. *)
Lemma main_cases (db : database) (ss : session_state) (w : main_widgets)
    (env : environment) :
  let lr := login_page db ss (login_form w) (gensalt env) in
  (r_db (main db ss w env) = lr_db lr
   /\ (r_session (main db ss w env) = lr_session lr
       \/ r_session (main db ss w env) = empty_session))
  \/ (lr_db lr = db
      /\ r_db (main db ss w env)
         = r_db (generate_button db (lr_session lr) w env)
      /\ r_session (main db ss w env)
         = r_session (generate_button db (lr_session lr) w env)
      /\ lr_session lr = default_logged_in ss).
Proof.
  intro lr. unfold main, init_database. fold lr.
  destruct (lr_control lr) as [[|] | | exn] eqn:Hctl;
    try (left; split; [reflexivity | now left]).
  destruct (username (lr_session lr)); [| left; split; [reflexivity | now left]].
  destruct (sair w); [left; split; [reflexivity | now right] |].
  right. simpl.
  assert (Hlr : lr_db lr = db /\ lr_session lr = default_logged_in ss).
  { revert Hctl. unfold lr, login_page.
    destruct (is_logged_in (default_logged_in ss)) eqn:Hin; [now split |].
    destruct (choice (login_form w)), (submitted (login_form w)); simpl;
      try discriminate.
    - destruct (credentials_ok _ _) as [[|] |]; discriminate.
    - destruct (truthy _ && truthy _); [| discriminate].
      destruct (hashpw _ _); [| discriminate].
      destruct (insert_user db _ _); discriminate. }
  destruct Hlr as [Hdb Hss]. now rewrite Hdb.
Qed.

Lemma main_users (db : database) (ss : session_state) (w : main_widgets)
    (env : environment) :
  users (r_db (main db ss w env))
  = users (lr_db (login_page db ss (login_form w) (gensalt env))).
Proof.
  destruct (main_cases db ss w env) as [[-> _] | (Hdb & -> & _ & _)];
    [reflexivity |].
  now rewrite generate_button_users, Hdb.
Qed.

(** Induction over the runs of a script. *)
Lemma run_script_invariant (P : database -> session_state -> Prop) :
  (forall db ss w env,
      P db ss -> P (r_db (main db ss w env)) (r_session (main db ss w env))) ->
  forall runs db ss,
    P db ss ->
    P (fst (run_script runs db ss)) (snd (run_script runs db ss)).
Proof.
  intros Hstep runs.
  induction runs as [| [w env] rest IH]; intros db ss HP; simpl.
  - exact HP.
  - apply IH, Hstep, HP.
Qed.

End Runs.

(** ** Invariants of the credential store *)

Lemma default_logged_in_user_id (ss : session_state) :
  user_id (default_logged_in ss) = user_id ss.
Proof. unfold default_logged_in. now destruct (logged_in ss). Qed.

Lemma usernames_unique_snoc (db db' : database) (r : users_row) :
  users db' = users db ++ [r] ->
  username_taken db (users_username r) = false ->
  usernames_unique db -> usernames_unique db'.
Proof.
  unfold usernames_unique. intros -> Hfresh Hnodup.
  rewrite map_app; simpl.
  apply NoDup_app; [exact Hnodup | repeat constructor; now intros [] |].
  intros name Hin [<- | []].
  apply username_taken_In in Hin. congruence.
Qed.

Lemma accounts_named_unique (db : database) (name : string) :
  usernames_unique db ->
  username_taken db name = true ->
  accounts_named db name = 1%nat.
Proof.
  unfold usernames_unique, username_taken, accounts_named.
  induction (users db) as [| r l IH]; simpl; [discriminate |].
  intros Hnodup Htaken. inversion Hnodup as [| ? ? Hnotin Hrest]; subst.
  destruct (String.eqb (users_username r) name) eqn:Heq; simpl.
  - apply String.eqb_eq in Heq. subst name. f_equal.
    clear IH Htaken Hnodup Hrest.
    induction l as [| r' l IH]; simpl; [reflexivity |].
    destruct (String.eqb (users_username r') (users_username r)) eqn:Heq'.
    + apply String.eqb_eq in Heq'. exfalso. apply Hnotin. now left.
    + apply IH. intro Hin. apply Hnotin. now right.
  - now apply IH.
Qed.

Lemma user_exists_grows (db db' : database) (l : list users_row) (uid : Z) :
  users db' = users db ++ l ->
  user_exists db uid = true -> user_exists db' uid = true.
Proof.
  unfold user_exists. intros -> H. rewrite existsb_app, H. reflexivity.
Qed.

Lemma select_user_exists (db : database) (name : string) (uid : Z)
    (hashed : bytes) :
  select_user db name = Some (uid, hashed) -> user_exists db uid = true.
Proof.
  unfold select_user, user_exists.
  destruct (find _ (users db)) as [r |] eqn:Hfind; [| discriminate].
  intros [= <- _]. apply find_some in Hfind. destruct Hfind as [Hin _].
  apply existsb_exists. exists r. split; [exact Hin | apply Z.eqb_refl].
Qed.

Section StoreInvariants.
Context {B : Bcrypt}.

Lemma main_keeps_usernames (db : database) (ss : session_state)
    (w : main_widgets) (env : environment) :
  usernames_unique db /\ usernames_nonempty db ->
  usernames_unique (r_db (main db ss w env))
  /\ usernames_nonempty (r_db (main db ss w env)).
Proof.
  intros [Huniq Hnonempty].
  unfold usernames_unique, usernames_nonempty in *. rewrite main_users.
  destruct (login_page_users db ss (login_form w) (gensalt env))
    as [-> | (hashed & Hname & _ & _ & Hfresh & Husers)]; [now split |].
  split.
  - now apply (usernames_unique_snoc db _ _ Husers).
  - rewrite Husers. apply Forall_app. split; [exact Hnonempty |].
    now repeat constructor.
Qed.

Lemma main_keeps_passwords_hashed (db : database) (ss : session_state)
    (w : main_widgets) (env : environment) :
  passwords_hashed db -> passwords_hashed (r_db (main db ss w env)).
Proof.
  unfold passwords_hashed. rewrite main_users. intro Hdb.
  destruct (login_page_users db ss (login_form w) (gensalt env))
    as [-> | (hashed & _ & Hpassword & Hhash & _ & ->)]; [exact Hdb |].
  apply Forall_app. split; [exact Hdb |].
  repeat constructor.
  exists (text_password (login_form w)), (gensalt env). now split.
Qed.

Lemma main_keeps_owners (db : database) (ss : session_state)
    (w : main_widgets) (env : environment) :
  owners_exist db ss ->
  owners_exist (r_db (main db ss w env)) (r_session (main db ss w env)).
Proof.
  intros [Hsession Hrows].
  pose proof (login_page_contents db ss (login_form w) (gensalt env)) as Hc.
  pose proof (login_page_users db ss (login_form w) (gensalt env)) as Hu.
  pose proof (login_page_session db ss (login_form w) (gensalt env)) as Hs.
  assert (Hgrow : exists l,
             users (lr_db (login_page db ss (login_form w) (gensalt env)))
             = users db ++ l).
  { destruct Hu as [-> | (hashed & _ & _ & _ & _ & ->)].
    - exists []. now rewrite app_nil_r.
    - now eexists. }
  destruct Hgrow as [l Hgrow].
  destruct (main_cases db ss w env)
    as [[Hdb Hss] | (Hsame & Hdb & Hss & Hlr)].
  - rewrite Hdb. split.
    + intros uid. destruct Hss as [-> | ->]; [| discriminate].
      destruct Hs as [-> | (uid' & hashed & Hsel & Hlrdb & Hlrss)].
      * rewrite default_logged_in_user_id. intro H.
        eapply user_exists_grows; [exact Hgrow | now apply Hsession].
      * rewrite Hlrdb, Hlrss. simpl. intros [= <-].
        eapply select_user_exists. exact Hsel.
    + rewrite Hc. eapply Forall_impl; [| exact Hrows].
      intros c. apply user_exists_grows with (l := l). exact Hgrow.
  - rewrite Hdb, Hss, Hlr. split.
    + intros uid. rewrite generate_button_user_id, default_logged_in_user_id.
      intro H. unfold user_exists. rewrite generate_button_users.
      now apply Hsession.
    + assert (Hsame_users : forall uid,
                 user_exists db uid = true ->
                 user_exists
                   (r_db (generate_button db (default_logged_in ss) w env))
                   uid = true).
      { intros uid. unfold user_exists. now rewrite generate_button_users. }
      destruct (generate_button_contents db (default_logged_in ss) w env)
        as [-> | (uid & artigo & roteiro & Huid & ->)].
      * eapply Forall_impl; [| exact Hrows]. intros c. apply Hsame_users.
      * apply Forall_app. split.
        -- eapply Forall_impl; [| exact Hrows]. intros c. apply Hsame_users.
        -- repeat constructor. simpl. apply Hsame_users, Hsession.
           now rewrite <- default_logged_in_user_id.
Qed.

End StoreInvariants.

(** ** The content store *)

Lemma insert_content_connect (db : database) (uid : Z)
    (tema artigo roteiro legendas : string) (now : Z) :
  insert_content connect db uid tema artigo roteiro legendas now
  = SqlOk {| users := users db;
             contents := contents db
               ++ [generated_row db uid tema artigo roteiro legendas now] |}.
Proof. reflexivity. Qed.

Lemma insert_desc_perm (r : contents_row) (l : list contents_row) :
  Permutation (insert_desc r l) (r :: l).
Proof.
  induction l as [| x rest IH]; simpl; [reflexivity |].
  destruct (contents_created_at x <=? contents_created_at r); [reflexivity |].
  rewrite IH. apply perm_swap.
Qed.

Lemma order_by_created_at_desc_perm (l : list contents_row) :
  Permutation (order_by_created_at_desc l) l.
Proof.
  induction l as [| x rest IH]; simpl; [reflexivity |].
  rewrite insert_desc_perm. now constructor.
Qed.

Lemma insert_desc_sorted (r : contents_row) (l : list contents_row) :
  StronglySorted (fun a b => contents_created_at a >= contents_created_at b) l ->
  StronglySorted (fun a b => contents_created_at a >= contents_created_at b)
    (insert_desc r l).
Proof.
  induction 1 as [| x rest Hsorted IH Hall]; simpl.
  - repeat constructor.
  - destruct (contents_created_at x <=? contents_created_at r) eqn:Hcmp.
    + apply Z.leb_le in Hcmp. constructor; [now constructor |].
      constructor; [lia |].
      eapply Forall_impl; [| exact Hall]. simpl. intros c Hc. lia.
    + apply Z.leb_gt in Hcmp. constructor; [exact IH |].
      rewrite Forall_forall. intros c Hin.
      apply (Permutation_in _ (insert_desc_perm r rest)) in Hin.
      destruct Hin as [<- | Hin]; [lia |].
      rewrite Forall_forall in Hall. now apply Hall.
Qed.

Lemma order_by_created_at_desc_sorted (l : list contents_row) :
  StronglySorted (fun a b => contents_created_at a >= contents_created_at b)
    (order_by_created_at_desc l).
Proof.
  induction l as [| x rest IH]; simpl; [constructor |].
  now apply insert_desc_sorted.
Qed.

(** A row later than all the others, scanned last, comes out first. *)
Lemma order_by_created_at_desc_latest (l : list contents_row)
    (r : contents_row) :
  Forall (fun c => contents_created_at c < contents_created_at r) l ->
  order_by_created_at_desc (l ++ [r]) = r :: order_by_created_at_desc l.
Proof.
  unfold order_by_created_at_desc.
  induction 1 as [| x rest Hx Hrest IH]; simpl; [reflexivity |].
  rewrite IH. simpl.
  destruct (contents_created_at r <=? contents_created_at x) eqn:Hcmp;
    [| reflexivity].
  apply Z.leb_le in Hcmp. lia.
Qed.

Lemma select_rows_perm (db : database) (uid : Z) :
  Permutation (select_rows db uid)
    (filter (fun r => contents_user_id r =? uid) (contents db)).
Proof. apply order_by_created_at_desc_perm. Qed.

Lemma select_rows_owner (db : database) (uid : Z) :
  Forall (fun r => contents_user_id r = uid) (select_rows db uid).
Proof.
  rewrite Forall_forall. intros r Hin.
  apply (Permutation_in _ (select_rows_perm db uid)) in Hin.
  apply filter_In in Hin. destruct Hin as [_ Hin]. now apply Z.eqb_eq.
Qed.

Lemma select_history_descending (db : database) (uid : Z) :
  descending (map snd (select_history db uid)).
Proof.
  unfold descending, select_history, select_rows.
  rewrite map_map; simpl.
  induction (order_by_created_at_desc_sorted
               (filter (fun r => contents_user_id r =? uid) (contents db)))
    as [| x rest Hsorted IH Hall]; simpl; constructor; [exact IH |].
  rewrite Forall_map. exact Hall.
Qed.

Lemma select_history_no_rows (db : database) (uid : Z) :
  Forall (fun r => contents_user_id r <> uid) (contents db) ->
  select_history db uid = [].
Proof.
  intro Hnone. unfold select_history, select_rows.
  replace (filter (fun r => contents_user_id r =? uid) (contents db))
    with (@nil contents_row); [reflexivity |].
  induction Hnone as [| x rest Hx Hrest IH]; simpl; [reflexivity |].
  apply Z.eqb_neq in Hx. now rewrite Hx.
Qed.

(** C4.  When a row is appended whose timestamp is later than that of every
    row its owner already has, the history of that owner is the new row
    followed by the former history.  For any database and owner the history
    is in descending timestamp order, holds exactly the rows of that owner,
    and is the empty list when the owner has no rows. *)
Theorem history_after_append
    (db db' : database) (uid : Z) (tema artigo roteiro legendas : string)
    (now : Z) :
  insert_content connect db uid tema artigo roteiro legendas now = SqlOk db' ->
  Forall (fun c => contents_user_id c = uid -> contents_created_at c < now)
         (contents db) ->
  select_history db' uid = (tema, now) :: select_history db uid
  /\ hd_error (select_history db' uid) = Some (tema, now)
  /\ forall (d : database) (owner : Z),
       descending (map snd (select_history d owner))
       /\ Forall (fun r => contents_user_id r = owner) (select_rows d owner)
       /\ Permutation (select_rows d owner)
            (filter (fun r => contents_user_id r =? owner) (contents d))
       /\ (Forall (fun r => contents_user_id r <> owner) (contents d) ->
           select_history d owner = []).
Proof.
  rewrite insert_content_connect. intros [= <-] Hlater.
  assert (Hhistory :
            select_history
              {| users := users db;
                 contents := contents db
                   ++ [generated_row db uid tema artigo roteiro legendas now] |}
              uid
            = (tema, now) :: select_history db uid).
  { unfold select_history, select_rows; simpl.
    rewrite filter_app; simpl. rewrite Z.eqb_refl.
    rewrite order_by_created_at_desc_latest; [reflexivity |].
    rewrite Forall_forall in *. intros c Hin. simpl.
    apply filter_In in Hin. destruct Hin as [Hin Howner].
    apply Z.eqb_eq in Howner. now apply Hlater. }
  split; [exact Hhistory |].
  split; [now rewrite Hhistory |].
  intros d owner. split; [apply select_history_descending |].
  split; [apply select_rows_owner |].
  split; [apply select_rows_perm | apply select_history_no_rows].
Qed.

(** ** Properties of the running application *)

Section Application.
Context {B : Bcrypt}.

Lemma reachable_usernames (runs : list (main_widgets * environment)) :
  usernames_unique (fst (run_script runs empty_db empty_session))
  /\ usernames_nonempty (fst (run_script runs empty_db empty_session)).
Proof.
  apply (run_script_invariant
           (fun db _ => usernames_unique db /\ usernames_nonempty db)).
  - intros db ss w env. apply main_keeps_usernames.
  - split; constructor.
Qed.

Lemma reachable_passwords_hashed (runs : list (main_widgets * environment)) :
  passwords_hashed (fst (run_script runs empty_db empty_session)).
Proof.
  apply (run_script_invariant (fun db _ => passwords_hashed db)).
  - intros db ss w env. apply main_keeps_passwords_hashed.
  - constructor.
Qed.

Lemma reachable_owners_exist (runs : list (main_widgets * environment)) :
  owners_exist (fst (run_script runs empty_db empty_session))
               (snd (run_script runs empty_db empty_session)).
Proof.
  apply (run_script_invariant owners_exist).
  - intros db ss w env. apply main_keeps_owners.
  - split; [discriminate | constructor].
Qed.

(** A logged-in session passes [login_page] untouched. *)
Lemma login_page_logged_in (db : database) (ss : session_state)
    (w : login_widgets) (salt : bytes) :
  logged_in ss = Some true ->
  login_page db ss w salt
  = {| lr_db := db; lr_session := ss; lr_messages := [];
       lr_control := Returns true |}.
Proof.
  intro Hin. unfold login_page.
  assert (Hss : default_logged_in ss = ss).
  { unfold default_logged_in. now rewrite Hin. }
  rewrite Hss. unfold is_logged_in. now rewrite Hin.
Qed.

(** The marker the button handler looks for is not in the error text. *)
Lemma generation_error_text_unmarked :
  contains "ERRO_IA:" generation_error_text = false.
Proof. reflexivity. Qed.

Lemma generate_texts_article_failure (env : environment) (w : main_widgets)
    (e : string) :
  ai env (prompt_artigo w) = ai_raises e ->
  generate_texts env w
  = (generation_error_text,
     fst (generate_content env (prompt_roteiro generation_error_text)),
     [st_error ("Erro ao contatar a IA: " ++ e)]
       ++ snd (generate_content env (prompt_roteiro generation_error_text)),
     [prompt_artigo w; prompt_roteiro generation_error_text]).
Proof.
  intro Hfail. unfold generate_texts.
  destruct (generate_content env (prompt_artigo w)) as [artigo shown1] eqn:H1.
  unfold generate_content in H1. rewrite Hfail in H1.
  injection H1 as <- <-.
  rewrite generation_error_text_unmarked. simpl negb. cbv iota.
  now destruct (generate_content env (prompt_roteiro generation_error_text)).
Qed.

(** C2, as amended.  In a store reached by running the application from
    the empty database, user names are unique.  Registering a user name
    that is already present writes nothing, whatever the password: the
    database is the same, one account carries the name and user names are
    still unique.  The attempt shows the user-name-exists error when the
    password is non-empty and bcrypt hashes it, and the fill-all-fields
    warning when the password is empty. *)
Theorem register_taken_username
    (runs : list (main_widgets * environment)) (ss : session_state)
    (name password : string) (salt : bytes) :
  let db := fst (run_script runs empty_db empty_session) in
  anonymous ss ->
  In name (map users_username (users db)) ->
  let reg := register db ss name password salt in
  usernames_unique db
  /\ lr_db reg = db
  /\ accounts_named (lr_db reg) name = 1%nat
  /\ usernames_unique (lr_db reg)
  /\ (password <> "" ->
      hashpw (encode_utf8 password) salt <> None ->
      lr_messages reg = [msg_duplicate_username])
  /\ (password = "" -> lr_messages reg = [msg_fill_all_fields]).
Proof.
  intros db Hanon Hpresent reg.
  assert (Htaken : username_taken db name = true)
    by now apply username_taken_In.
  destruct (reachable_usernames runs) as [Huniq Hnonempty].
  fold db in Huniq, Hnonempty.
  assert (Hname : truthy name = true).
  { apply truthy_true_iff.
    apply in_map_iff in Hpresent. destruct Hpresent as (r & <- & Hin).
    unfold usernames_nonempty in Hnonempty. rewrite Forall_forall in Hnonempty.
    now apply Hnonempty. }
  assert (Hreg : lr_db reg = db
                 /\ (password <> "" ->
                     hashpw (encode_utf8 password) salt <> None ->
                     lr_messages reg = [msg_duplicate_username])
                 /\ (password = "" -> lr_messages reg = [msg_fill_all_fields])).
  { unfold reg. rewrite (register_anonymous _ _ _ _ _ Hanon), Hname. simpl.
    destruct (truthy password) eqn:Hpassword.
    - destruct (hashpw (encode_utf8 password) salt) as [hashed |].
      + rewrite (insert_user_taken _ _ _ Htaken).
        split; [reflexivity |]. split; [reflexivity |].
        intros ->. discriminate.
      + split; [reflexivity |]. split; [congruence |].
        intros ->. discriminate.
    - split; [reflexivity |]. split; [| reflexivity].
      intro Hne. apply truthy_true_iff in Hne. congruence. }
  destruct Hreg as (Hdb & Hdup & Hfill). rewrite Hdb.
  split; [exact Huniq |]. split; [reflexivity |].
  split; [now apply accounts_named_unique |]. split; [exact Huniq |].
  split; assumption.
Qed.

(** X17.  In every state reached by running the application from the
    empty database and a fresh session, the [user_id] of each content row
    is the id of a row of the users table, and so is the [user_id] of the
    session: the only id ever written is the one the session took from the
    users table at login, and no row is ever removed. *)
Theorem content_owner_exists
    (runs : list (main_widgets * environment)) :
  let db := fst (run_script runs empty_db empty_session) in
  let ss := snd (run_script runs empty_db empty_session) in
  Forall (fun c => user_exists db (contents_user_id c) = true) (contents db)
  /\ forall uid, user_id ss = Some uid -> user_exists db uid = true.
Proof.
  intros db ss. destruct (reachable_owners_exist runs) as [Hsession Hrows].
  split; [exact Hrows | exact Hsession].
Qed.

(** C8.  Assuming that a bcrypt hash never equals the password it was made
    from: in every store reached by running the application from the empty
    database each stored password is the bcrypt hash of some non-empty
    password and differs from it, and one more run either leaves the users
    table as it is or appends a single row, whose password field is the
    hash, under the salt drawn in that run, of the password typed into the
    registration form, and is not that password. *)
Theorem password_stored_hashed
    (Hhides : hashpw_hides)
    (runs : list (main_widgets * environment)) (w : main_widgets)
    (env : environment) :
  let db := fst (run_script runs empty_db empty_session) in
  let ss := snd (run_script runs empty_db empty_session) in
  let typed := text_password (login_form w) in
  Forall (fun r => exists password salt,
              hashpw (encode_utf8 password) salt = Some (users_password r)
              /\ users_password r <> encode_utf8 password)
         (users db)
  /\ (users (r_db (main db ss w env)) = users db
      \/ exists hashed,
           hashpw (encode_utf8 typed) (gensalt env) = Some hashed
           /\ users (r_db (main db ss w env))
              = users db
                ++ [registered_row db (text_username (login_form w)) hashed]
           /\ users_password
                (registered_row db (text_username (login_form w)) hashed)
              = hashed
           /\ hashed <> encode_utf8 typed).
Proof.
  intros db ss typed. split.
  - pose proof (reachable_passwords_hashed runs) as Hhashed.
    unfold passwords_hashed in Hhashed. fold db in Hhashed.
    eapply Forall_impl; [| exact Hhashed].
    intros r (password & salt & _ & Hr). exists password, salt.
    split; [exact Hr |]. now apply (Hhides _ salt).
  - rewrite main_users.
    destruct (login_page_users db ss (login_form w) (gensalt env))
      as [-> | (hashed & _ & _ & Hhash & _ & ->)]; [now left |].
    right. exists hashed. split; [exact Hhash |].
    split; [reflexivity |]. split; [reflexivity |].
    now apply (Hhides _ (gensalt env)).
Qed.

(** C10.  In an authenticated session, pressing the generation button with
    an empty topic shows only the missing-topic warning: the database and
    the session are left as they were and no prompt is sent to the model. *)
Theorem generate_empty_tema
    (db : database) (ss : session_state) (w : main_widgets)
    (env : environment) :
  authenticated ss ->
  sair w = false -> gerar w = true -> tema w = "" ->
  let r := main db ss w env in
  r_db r = db
  /\ contents (r_db r) = contents db
  /\ r_ai_calls r = []
  /\ r_messages r = [msg_missing_tema]
  /\ r_session r = ss
  /\ r_control r = Returns tt.
Proof.
  intros (Hin & Hname & Huid) Hsair Hgerar Htema r.
  unfold r, main, init_database.
  rewrite (login_page_logged_in _ _ _ _ Hin); simpl.
  destruct (username ss) as [name |]; [| congruence].
  unfold generate_button. rewrite Hsair, Hgerar, Htema; simpl.
  now repeat split.
Qed.

(** C6.  When the model raises on the article prompt, [generate_content]
    returns its error text, which does not contain the marker the button
    handler looks for.  The handler therefore sends a second prompt, built
    from the error text, and the row it stores has as its script whatever
    that second call yields, not the placeholder. *)
Theorem article_failure_still_requests_script
    (db : database) (ss : session_state) (w : main_widgets)
    (env : environment) (e : string) :
  authenticated ss ->
  sair w = false -> gerar w = true -> tema w <> "" ->
  ai env (prompt_artigo w) = ai_raises e ->
  let r := main db ss w env in
  let second := generate_content env (prompt_roteiro generation_error_text) in
  contains "ERRO_IA:" generation_error_text = false
  /\ r_ai_calls r
     = [prompt_artigo w; prompt_roteiro generation_error_text]
  /\ r_control r = Rerun
  /\ exists uid,
       user_id ss = Some uid
       /\ r_db r
          = {| users := users db;
               contents := contents db
                 ++ [generated_row db uid (tema w) generation_error_text
                       (fst second) "" (current_timestamp env)] |}.
Proof.
  intros (Hin & Hname & Huid) Hsair Hgerar Htema Hfail r second.
  split; [reflexivity |].
  unfold r, main, init_database.
  rewrite (login_page_logged_in _ _ _ _ Hin); simpl.
  destruct (username ss) as [name |]; [| congruence].
  apply truthy_true_iff in Htema.
  unfold generate_button. rewrite Hsair, Hgerar, Htema.
  rewrite (generate_texts_article_failure env w e Hfail). fold second.
  destruct (user_id ss) as [uid |]; [| congruence].
  simpl. split; [reflexivity |]. split; [reflexivity |].
  exists uid. now split.
Qed.

End Application.

(** ** The sample session, evaluated *)

Lemma toy_checkpw_accepts : @checkpw_accepts toy_bcrypt.
Proof.
  intros pw salt hashed. simpl. unfold toy_hashpw, toy_checkpw.
  destruct (over_limit pw); [discriminate |].
  intros [= <-]. now rewrite String.eqb_refl.
Qed.


Lemma toy_hashpw_hides : @hashpw_hides toy_bcrypt.
Proof.
  intros pw salt hashed. simpl. unfold toy_hashpw.
  destruct (over_limit pw); [discriminate |]. intros [= <-] E.
  apply (f_equal String.length) in E. simpl in E. lia.
Qed.

(** The library that truncates keeps the first part of the contract. *)
Lemma truncating_checkpw_accepts : @checkpw_accepts truncating_bcrypt.
Proof.
  intros pw salt hashed. simpl. unfold truncating_hashpw, truncating_checkpw.
  intros [= <-]. now rewrite String.eqb_refl.
Qed.

Lemma substring_all (n : nat) (s : string) :
  (String.length s <= n)%nat -> String.substring 0 n s = s.
Proof.
  revert n. induction s as [| c s IH]; intros [| n] Hlen; simpl in *;
    try reflexivity; try lia.
  f_equal. apply IH. lia.
Qed.

Lemma truncating_checkpw_rejects : @checkpw_rejects truncating_bcrypt.
Proof.
  intros pw pw' salt hashed Hpw Hpw'. simpl.
  unfold truncating_hashpw, truncating_checkpw, truncate.
  rewrite (substring_all _ _ Hpw), (substring_all _ _ Hpw').
  intros [= <-] [= E]. apply String.eqb_eq in E. congruence.
Qed.

Example sample_runs_state :
  @run_script toy_bcrypt sample_runs empty_db empty_session
  = (sample_db, sample_session).
Proof. reflexivity. Qed.

Lemma sample_session_authenticated : authenticated sample_session.
Proof. repeat split; discriminate. Defined.

Lemma sample_db_usernames_unique : usernames_unique sample_db.
Proof. repeat constructor. now intros []. Defined.





Lemma sample_db_checkpw_returns (password : string) :
  within_bcrypt_limit (encode_utf8 password) ->
  forall r, In r (users sample_db) -> users_username r = "alice" ->
            @checkpw toy_bcrypt (encode_utf8 password) (users_password r)
            <> None.
Proof.
  intros Hlimit r [<- | []] _.
  apply Nat.ltb_ge in Hlimit.
  cbn [checkpw toy_bcrypt users_password]. unfold toy_checkpw, over_limit.
  now rewrite Hlimit.
Defined.

(** Alice is refused with a wrong password. *)
Lemma verify_invalid_credentials_witness :
  anonymous empty_session
  /\ usernames_unique sample_db
  /\ @verify toy_bcrypt sample_db empty_session "alice" "wrong"
     = login_refused sample_db empty_session.
Proof.
  split; [reflexivity |]. split; [exact sample_db_usernames_unique |].
  apply (proj1 (verify_invalid_credentials (B := toy_bcrypt)
                  sample_db empty_session "alice" "wrong" eq_refl
                  sample_db_usernames_unique
                  (sample_db_checkpw_returns "wrong"
                     ltac:(apply Nat.leb_le; reflexivity)))).
  right.
  exists {| users_id := 1; users_username := "alice";
            users_password := "ssecret1" |}.
  split; [now left |]. split; reflexivity.
Defined.

(** With bcrypt raising over 72 bytes, a password of 73 bytes ends in the
    error for Alice, who has an account, and in the refusal for Bob, who
    has none. *)
Lemma long_password_tells_accounts_apart :
  lr_control (@verify toy_bcrypt sample_db empty_session "alice" long_password)
  = Raises "ValueError"
  /\ lr_messages
       (@verify toy_bcrypt sample_db empty_session "alice" long_password)
     = []
  /\ @verify toy_bcrypt sample_db empty_session "alice" long_password
     <> login_refused sample_db empty_session
  /\ @verify toy_bcrypt sample_db empty_session "bob" long_password
     = login_refused sample_db empty_session.
Proof.
  split; [reflexivity |]. split; [reflexivity |].
  split; [discriminate | reflexivity].
Qed.

(** Alice's registration leaves the fresh session anonymous. *)
Lemma register_stays_anonymous_witness :
  anonymous empty_session
  /\ anonymous
       (lr_session
          (@register toy_bcrypt empty_db empty_session "alice" "secret1" "s")).
Proof.
  split; [reflexivity |].
  exact (proj1 (proj2 (register_stays_anonymous (B := toy_bcrypt)
                         empty_db empty_session "alice" "secret1" "s"
                         eq_refl))).
Defined.

(** A registration without a password. *)
Lemma register_empty_field_witness :
  anonymous empty_session
  /\ lr_messages (@register toy_bcrypt empty_db empty_session "alice" "" "s")
     = [msg_fill_all_fields]
  /\ lr_db (@register toy_bcrypt empty_db empty_session "alice" "" "s")
     = empty_db.
Proof.
  split; [reflexivity |].
  destruct (register_empty_field (B := toy_bcrypt)
              empty_db empty_session "alice" "" "s" eq_refl
              (or_intror eq_refl))
    as (Hmsg & Hdb & _).
  split; [exact Hmsg | exact Hdb].
Defined.

(** Alice registers a second time in the store of the sample session. *)
Lemma register_taken_username_witness :
  anonymous empty_session
  /\ In "alice" (map users_username (users sample_db))
  /\ lr_messages
       (@register toy_bcrypt sample_db empty_session "alice" "other" "s")
     = [msg_duplicate_username]
  /\ lr_db (@register toy_bcrypt sample_db empty_session "alice" "other" "s")
     = sample_db.
Proof.
  split; [reflexivity |]. split; [now left |].
  destruct (register_taken_username (B := toy_bcrypt)
              sample_runs empty_session "alice" "other" "s" eq_refl
              (or_introl eq_refl))
    as (_ & Hdb & _ & _ & Hmsg & _).
  split; [apply Hmsg; discriminate | exact Hdb].
Defined.

(** With the password left empty the same attempt shows the
    fill-all-fields warning, not the user-name-exists error. *)
Lemma taken_username_empty_password_warning :
  username_taken sample_db "alice" = true
  /\ lr_messages (@register toy_bcrypt sample_db empty_session "alice" "" "s")
     = [msg_fill_all_fields]
  /\ lr_messages (@register toy_bcrypt sample_db empty_session "alice" "" "s")
     <> [msg_duplicate_username].
Proof.
  split; [reflexivity |]. split; [reflexivity | discriminate].
Qed.

(** Alice's second row, written one second after her first. *)
Lemma history_after_append_witness :
  select_history
    {| users := users sample_db_one_row;
       contents := contents sample_db_one_row
         ++ [generated_row sample_db_one_row 1 "b" "artigo b" "roteiro b" ""
               101] |} 1
  = [("b", 101); ("a", 100)].
Proof.
  refine (proj1 (history_after_append sample_db_one_row _ 1
                   "b" "artigo b" "roteiro b" "" 101 eq_refl _)).
  constructor; [intros _; reflexivity | constructor].
Defined.

(** Written within the same second as her first row, the second row comes
    after it in the history. *)
Lemma same_timestamp_keeps_older_first :
  match insert_content connect sample_db_one_row 1
          "b" "artigo b" "roteiro b" "" 100 with
  | SqlOk db' =>
      select_history db' 1 = [("a", 100); ("b", 100)]
      /\ hd_error (select_history db' 1) <> Some ("b", 100)
  | IntegrityError => False
  end.
Proof.
  simpl. split; [reflexivity | discriminate].
Qed.


(** A character of two bytes replaced by one of one byte is a
    one-character edit. *)
Example mutation_of_two_byte_character :
  single_char_mutation "café" "cafe".
Proof.
  apply (mutation_replace "caf" "é" "e" "");
    [reflexivity | reflexivity | discriminate].
Qed.

(** The passwords of the sample store. *)
Lemma password_stored_hashed_witness :
  @hashpw_hides toy_bcrypt
  /\ Forall (fun r => exists password salt,
                 @hashpw toy_bcrypt (encode_utf8 password) salt
                 = Some (users_password r)
                 /\ users_password r <> encode_utf8 password)
            (users sample_db).
Proof.
  split; [exact toy_hashpw_hides |].
  exact (proj1 (password_stored_hashed (B := toy_bcrypt) toy_hashpw_hides
                  sample_runs sample_login (sample_env 20))).
Defined.

(** Alice presses the button without a topic. *)
Lemma generate_empty_tema_witness :
  authenticated sample_session
  /\ r_db (@main toy_bcrypt sample_db sample_session (sample_generate "")
             (sample_env 30)) = sample_db
  /\ r_ai_calls (@main toy_bcrypt sample_db sample_session
                   (sample_generate "") (sample_env 30)) = [].
Proof.
  split; [exact sample_session_authenticated |].
  destruct (generate_empty_tema (B := toy_bcrypt) sample_db sample_session
              (sample_generate "") (sample_env 30)
              sample_session_authenticated eq_refl eq_refl eq_refl)
    as (Hdb & _ & Hcalls & _).
  split; [exact Hdb | exact Hcalls].
Defined.

(** Alice asks for content while the model is out of quota for articles:
    two prompts are sent and the stored script is the model's answer to
    the second. *)
Lemma article_failure_still_requests_script_witness :
  authenticated sample_session
  /\ sample_ai (prompt_artigo (sample_generate "t")) = ai_raises "quota"
  /\ length (r_ai_calls (@main toy_bcrypt sample_db sample_session
                           (sample_generate "t") (sample_env 30))) = 2%nat
  /\ map contents_roteiro
       (contents (r_db (@main toy_bcrypt sample_db sample_session
                          (sample_generate "t") (sample_env 30))))
     = ["ROTEIRO"]
  /\ "ROTEIRO" <> roteiro_placeholder.
Proof.
  split; [exact sample_session_authenticated |].
  split; [reflexivity |].
  destruct (article_failure_still_requests_script (B := toy_bcrypt)
              sample_db sample_session (sample_generate "t") (sample_env 30)
              "quota" sample_session_authenticated eq_refl eq_refl
              ltac:(discriminate) eq_refl)
    as (_ & Hcalls & _ & uid & _ & Hdb).
  split; [now rewrite Hcalls |].
  split; [now rewrite Hdb | discriminate].
Defined.

(** ** Whole runs: the login gate *)

Lemma is_logged_in_default (ss : session_state) :
  is_logged_in (default_logged_in ss) = is_logged_in ss.
Proof.
  unfold default_logged_in, is_logged_in.
  now destruct (logged_in ss) eqn:E; simpl; rewrite ?E.
Qed.

Lemma is_logged_in_true (ss : session_state) :
  is_logged_in ss = true <-> logged_in ss = Some true.
Proof.
  unfold is_logged_in. destruct (logged_in ss) as [[|] |]; split; congruence.
Qed.

Lemma default_logged_in_fixed (ss : session_state) :
  logged_in ss = Some true -> default_logged_in ss = ss.
Proof. unfold default_logged_in. now intros ->. Qed.

Lemma default_logged_in_fields (ss : session_state) :
  username (default_logged_in ss) = username ss
  /\ user_id (default_logged_in ss) = user_id ss
  /\ last_generated (default_logged_in ss) = last_generated ss
  /\ (logged_in (default_logged_in ss) = Some true ->
      logged_in ss = Some true).
Proof.
  unfold default_logged_in.
  destruct (logged_in ss) eqn:E; simpl; repeat split; congruence.
Qed.

Section Gate.
Context {B : Bcrypt}.

(** An anonymous session leaves [login_page] by [return False], by the
    rerun of a login, or by the error of a bcrypt call, which writes
    nothing. *)
Lemma login_page_anonymous_control (db : database) (ss : session_state)
    (w : login_widgets) (salt : bytes) :
  anonymous ss ->
  lr_control (login_page db ss w salt) = Returns false
  \/ (lr_control (login_page db ss w salt) = Rerun
      /\ exists uid hashed,
           choice w = ChoiceLogin /\ submitted w = true
           /\ select_user db (text_username w) = Some (uid, hashed)
           /\ checkpw (encode_utf8 (text_password w)) hashed = Some true
           /\ login_page db ss w salt
              = login_accepted db ss (text_username w) uid)
  \/ login_page db ss w salt = bcrypt_raised db ss.
Proof.
  intro Hanon. unfold login_page, login_accepted, bcrypt_raised.
  rewrite (default_logged_in_anonymous ss Hanon).
  destruct (choice w), (submitted w); try (now left).
  - destruct (select_user db (text_username w)) as [[uid hashed] |];
      simpl; [| now left].
    destruct (checkpw _ hashed) as [[|] |] eqn:Hcheck;
      [| now left | now right; right].
    right. left. split; [reflexivity |]. now exists uid, hashed.
  - destruct (truthy (text_username w) && truthy (text_password w));
      [| now left].
    destruct (hashpw _ salt) as [hashed |]; [| now right; right].
    now destruct (insert_user db (text_username w) _); left.
Qed.

(** A run in an anonymous session is the run of [login_page]. *)
Lemma main_anonymous (db : database) (ss : session_state) (w : main_widgets)
    (env : environment) :
  anonymous ss ->
  let lr := login_page db ss (login_form w) (gensalt env) in
  main db ss w env
  = {| r_db := lr_db lr; r_session := lr_session lr;
       r_messages := lr_messages lr; r_ai_calls := []; r_history := None;
       r_control := match lr_control lr with
                    | Returns _ => Returns tt
                    | Rerun => Rerun
                    | Raises exn => Raises exn
                    end |}.
Proof.
  intros Hanon lr. unfold main, init_database. fold lr.
  destruct (login_page_anonymous_control db ss (login_form w) (gensalt env)
              Hanon) as [Hctl | [[Hctl _] | Hraised]];
    fold lr in Hctl || fold lr in Hraised;
    [now rewrite Hctl | now rewrite Hctl | now rewrite Hraised].
Qed.

(** A run in a logged-in session is the sidebar and the button handler. *)
Lemma main_logged_in (db : database) (ss : session_state) (w : main_widgets)
    (env : environment) :
  logged_in ss = Some true ->
  main db ss w env
  = match username ss with
    | None =>
        {| r_db := db; r_session := ss; r_messages := []; r_ai_calls := [];
           r_history := None; r_control := Raises "AttributeError" |}
    | Some _ =>
        if sair w then
          {| r_db := db; r_session := empty_session; r_messages := [];
             r_ai_calls := []; r_history := None; r_control := Rerun |}
        else generate_button db ss w env
    end.
Proof.
  intro Hin. unfold main, init_database.
  rewrite (login_page_logged_in _ _ _ _ Hin); simpl.
  destruct (username ss); [| reflexivity].
  destruct (sair w); [reflexivity |].
  now destruct (generate_button db ss w env).
Qed.

(** X1.  Pressing the logout button in an authenticated session empties the
    session, whatever else is pressed or typed in that run: nothing is
    written, no prompt is sent, and the next run is that of an anonymous
    session. *)
Theorem logout_clears_session
    (db : database) (ss : session_state) (w : main_widgets)
    (env : environment) :
  authenticated ss ->
  sair w = true ->
  main db ss w env
  = {| r_db := db; r_session := empty_session; r_messages := [];
       r_ai_calls := []; r_history := None; r_control := Rerun |}
  /\ anonymous (r_session (main db ss w env)).
Proof.
  intros (Hin & Hname & _) Hsair.
  rewrite (main_logged_in _ _ _ _ Hin), Hsair.
  destruct (username ss); [now split | congruence].
Qed.

(** X2.  A run in an anonymous session sends no prompt to the model,
    leaves the contents table as it is and shows no history, whatever the
    widgets hold; with the login form selected it leaves the whole database
    as it is.  When such a run ends in an exception, it is the error of a
    bcrypt call and the whole database is as it was. *)
Theorem anonymous_run_is_inert
    (db : database) (ss : session_state) (w : main_widgets)
    (env : environment) :
  anonymous ss ->
  let r := main db ss w env in
  r_ai_calls r = []
  /\ contents (r_db r) = contents db
  /\ r_history r = None
  /\ (raised (r_control r) = true ->
      r_control r = Raises "ValueError" /\ r_db r = db)
  /\ (choice (login_form w) = ChoiceLogin -> r_db r = db).
Proof.
  intros Hanon r. unfold r. rewrite (main_anonymous _ _ _ _ Hanon); simpl.
  split; [reflexivity |].
  split; [apply login_page_contents |].
  split; [reflexivity |].
  split.
  - destruct (login_page_anonymous_control db ss (login_form w) (gensalt env)
                Hanon) as [Hctl | [[Hctl _] | Hraised]].
    + rewrite Hctl. discriminate.
    + rewrite Hctl. discriminate.
    + rewrite Hraised. now split.
  - intro Hchoice. unfold login_page.
    rewrite (default_logged_in_anonymous ss Hanon), Hchoice.
    destruct (submitted (login_form w)); [| reflexivity].
    now destruct (credentials_ok _ _) as [[|] |].
Qed.

(** X3.  In a logged-in session the login and registration forms are not
    reached: a run does not depend on what they hold, and it leaves the
    users table as it is. *)
Theorem logged_in_run_ignores_forms
    (db : database) (ss : session_state) (w : main_widgets)
    (f : login_widgets) (env : environment) :
  logged_in ss = Some true ->
  main db ss (with_login_form w f) env = main db ss w env
  /\ users (r_db (main db ss w env)) = users db.
Proof.
  intro Hin. rewrite !(main_logged_in _ _ _ _ Hin). split.
  - destruct (username ss); [| reflexivity].
    unfold generate_button, generate_texts, prompt_artigo; simpl.
    reflexivity.
  - destruct (username ss); [| reflexivity].
    destruct (sair w); [reflexivity | apply generate_button_users].
Qed.

End Gate.

(** ** Whole runs: what a run can do to the state *)

Lemma select_user_grows (db db' : database) (l : list users_row)
    (name : string) (uid : Z) (hashed : bytes) :
  users db' = users db ++ l ->
  select_user db name = Some (uid, hashed) ->
  select_user db' name = Some (uid, hashed).
Proof.
  unfold select_user. intros ->.
  induction (users db) as [| r rest IH]; simpl; [discriminate |].
  destruct (String.eqb (users_username r) name); [trivial | exact IH].
Qed.

Section Steps.
Context {B : Bcrypt}.

(** The button handler either writes nothing and keeps the session, or
    appends one row under the [user_id] of the session and keeps its two
    texts for the results panel. *)
Lemma generate_button_cases (db : database) (ss : session_state)
    (w : main_widgets) (env : environment) :
  let r := generate_button db ss w env in
  (r_db r = db /\ r_session r = ss
   /\ (raised (r_control r) = true -> user_id ss = None))
  \/ exists uid artigo roteiro,
       user_id ss = Some uid
       /\ gerar w = true /\ tema w <> ""
       /\ r_db r
          = {| users := users db;
               contents := contents db
                 ++ [generated_row db uid (tema w) artigo roteiro ""
                       (current_timestamp env)] |}
       /\ r_session r = set_last_generated ss artigo roteiro
       /\ r_control r = Rerun.
Proof.
  unfold generate_button.
  destruct (gerar w); [| now left].
  destruct (truthy (tema w)) eqn:Htema; [| now left].
  destruct (generate_texts env w) as [[[artigo roteiro] shown] calls].
  destruct (user_id ss) as [uid |] eqn:Huid; [| now left].
  right. exists uid, artigo, roteiro. simpl.
  repeat split. now apply truthy_true_iff.
Qed.

(** An anonymous session that does not log in keeps its session; its run
    writes at most one row, to the users table, and nothing when bcrypt
    raises. *)
Lemma login_page_anonymous_cases (db : database) (ss : session_state)
    (f : login_widgets) (salt : bytes) :
  anonymous ss ->
  let lr := login_page db ss f salt in
  (lr_control lr = Returns false
   /\ lr_session lr = default_logged_in ss
   /\ (users (lr_db lr) = users db
       \/ exists hashed,
            username_taken db (text_username f) = false
            /\ users (lr_db lr)
               = users db ++ [registered_row db (text_username f) hashed]))
  \/ (lr_control lr = Rerun /\ lr_db lr = db
      /\ exists uid hashed,
           select_user db (text_username f) = Some (uid, hashed)
           /\ lr_session lr
              = set_logged_in (default_logged_in ss) (text_username f) uid)
  \/ lr = bcrypt_raised db ss.
Proof.
  intros Hanon lr. unfold lr, login_page, bcrypt_raised.
  rewrite (default_logged_in_anonymous ss Hanon).
  destruct (choice f), (submitted f); try (left; repeat split; now left).
  - destruct (select_user db (text_username f)) as [[uid hashed] |];
      simpl; [| left; repeat split; now left].
    destruct (checkpw _ hashed) as [[|] |];
      [| left; repeat split; now left | now right; right].
    right. left. repeat split. now exists uid, hashed.
  - destruct (truthy (text_username f) && truthy (text_password f));
      [| left; repeat split; now left].
    destruct (hashpw _ salt) as [hashed |]; [| now right; right].
    unfold insert_user.
    destruct (username_taken db (text_username f)) eqn:Htaken; left;
      (split; [reflexivity |]); (split; [reflexivity |]);
      [now left | right; now exists hashed].
Qed.

(** The five ways a run can go. *)
Lemma main_step (db : database) (ss : session_state) (w : main_widgets)
    (env : environment) :
  let r := main db ss w env in
  let f := login_form w in
  (anonymous ss /\ contents (r_db r) = contents db
   /\ r_session r = default_logged_in ss
   /\ (raised (r_control r) = true ->
       r_control r = Raises "ValueError" /\ r_db r = db)
   /\ (users (r_db r) = users db
       \/ exists hashed,
            username_taken db (text_username f) = false
            /\ users (r_db r)
               = users db ++ [registered_row db (text_username f) hashed]))
  \/ (anonymous ss /\ r_db r = db /\ r_control r = Rerun
      /\ exists uid hashed,
           select_user db (text_username f) = Some (uid, hashed)
           /\ r_session r
              = set_logged_in (default_logged_in ss) (text_username f) uid)
  \/ (logged_in ss = Some true /\ r_db r = db
      /\ r_session r = empty_session /\ r_control r = Rerun)
  \/ (logged_in ss = Some true /\ r_db r = db /\ r_session r = ss
      /\ (raised (r_control r) = true ->
          username ss = None \/ user_id ss = None))
  \/ (logged_in ss = Some true
      /\ exists uid artigo roteiro,
           user_id ss = Some uid
           /\ r_db r
              = {| users := users db;
                   contents := contents db
                     ++ [generated_row db uid (tema w) artigo roteiro ""
                           (current_timestamp env)] |}
           /\ r_session r = set_last_generated ss artigo roteiro
           /\ r_control r = Rerun).
Proof.
  intros r f. unfold r.
  destruct (is_logged_in ss) eqn:Hgate.
  - apply is_logged_in_true in Hgate.
    rewrite (main_logged_in _ _ _ _ Hgate).
    destruct (username ss) as [name |] eqn:Hname.
    + destruct (sair w).
      * right. right. left. now repeat split.
      * destruct (generate_button_cases db ss w env)
          as [(Hdb & Hss & Hraise) | (uid & artigo & roteiro & Huid & _ & _
                                      & Hdb & Hss & Hctl)].
        -- right. right. right. left.
           split; [exact Hgate |]. split; [exact Hdb |].
           split; [exact Hss |]. intro H. right. now apply Hraise.
        -- right. right. right. right. split; [exact Hgate |].
           now exists uid, artigo, roteiro.
    + right. right. right. left.
      split; [exact Hgate |]. split; [reflexivity |].
      split; [reflexivity |]. intros _. now left.
  - assert (Hanon : anonymous ss) by exact Hgate.
    rewrite (main_anonymous _ _ _ _ Hanon); simpl. fold f.
    destruct (login_page_anonymous_cases db ss f (gensalt env) Hanon)
      as [(Hctl & Hss & Husers)
         | [(Hctl & Hdb & uid & hashed & Hsel & Hss) | Hraised]].
    + left. split; [exact Hanon |].
      split; [apply login_page_contents |].
      rewrite Hctl. split; [exact Hss |].
      split; [discriminate | exact Husers].
    + right. left. split; [exact Hanon |]. rewrite Hctl.
      repeat split; [exact Hdb |]. now exists uid, hashed.
    + left. split; [exact Hanon |]. rewrite Hraised. simpl.
      split; [reflexivity |]. split; [reflexivity |].
      split; [now split | now left].
Qed.

End Steps.

(** ** Whole runs: invariants of the state *)

Lemma fold_max_bounds (i : Z) (rest : list Z) :
  i <= fold_right Z.max i rest
  /\ Forall (fun j => j <= fold_right Z.max i rest) rest.
Proof.
  induction rest as [| k rest [Hi Hall]]; simpl.
  - split; [lia | constructor].
  - split; [lia |]. constructor; [lia |].
    eapply Forall_impl; [| exact Hall]. simpl. intros j Hj. lia.
Qed.

Lemma next_rowid_above (ids : list Z) :
  Forall (fun i => i < next_rowid ids) ids.
Proof.
  destruct ids as [| i rest]; simpl; [constructor |].
  destruct (fold_max_bounds i rest) as [Hi Hall].
  constructor; [lia |].
  eapply Forall_impl; [| exact Hall]. simpl. intros j Hj. lia.
Qed.

Lemma next_rowid_positive (ids : list Z) :
  Forall (fun i => 1 <= i) ids -> 1 <= next_rowid ids.
Proof.
  destruct ids as [| i rest]; simpl; [lia |].
  intro Hpos. inversion Hpos as [| ? ? Hi _]; subst.
  destruct (fold_max_bounds i rest) as [Hle _]. lia.
Qed.

Lemma row_ids_snoc (ids : list Z) :
  NoDup ids -> Forall (fun i => 1 <= i) ids ->
  NoDup (ids ++ [next_rowid ids])
  /\ Forall (fun i => 1 <= i) (ids ++ [next_rowid ids]).
Proof.
  intros Hnodup Hpos. pose proof (next_rowid_above ids) as Habove.
  pose proof (next_rowid_positive ids Hpos) as Hone.
  split.
  - apply NoDup_app; [exact Hnodup | repeat constructor; now intros [] |].
    intros i Hin [<- | []].
    rewrite Forall_forall in Habove. specialize (Habove _ Hin). lia.
  - apply Forall_app. split; [exact Hpos | now repeat constructor].
Qed.

Section StateInvariants.
Context {B : Bcrypt}.

Lemma main_appends (db : database) (ss : session_state) (w : main_widgets)
    (env : environment) :
  exists new_users new_contents,
    users (r_db (main db ss w env)) = users db ++ new_users
    /\ contents (r_db (main db ss w env)) = contents db ++ new_contents.
Proof.
  destruct (main_step db ss w env)
    as [(_ & Hc & _ & _ & [Hu | (hashed & _ & Hu)])
       | [(_ & Hdb & _)
         | [(_ & Hdb & _)
           | [(_ & Hdb & _)
             | (_ & uid & artigo & roteiro & _ & Hdb & _)]]]];
    rewrite ?Hdb, ?Hc, ?Hu; simpl.
  - exists [], []. rewrite !app_nil_r. split; reflexivity.
  - eexists; exists []. split; [reflexivity | now rewrite app_nil_r].
  - exists [], []. rewrite !app_nil_r. split; reflexivity.
  - exists [], []. rewrite !app_nil_r. split; reflexivity.
  - exists [], []. rewrite !app_nil_r. split; reflexivity.
  - exists []. eexists. split; [now rewrite app_nil_r | reflexivity].
Qed.

Lemma main_keeps_row_ids (db : database) (ss : session_state)
    (w : main_widgets) (env : environment) :
  row_ids_distinct db -> row_ids_distinct (r_db (main db ss w env)).
Proof.
  intros (Hu1 & Hu2 & Hc1 & Hc2). unfold row_ids_distinct.
  destruct (main_step db ss w env)
    as [(_ & Hc & _ & _ & [Hu | (hashed & _ & Hu)])
       | [(_ & Hdb & _)
         | [(_ & Hdb & _)
           | [(_ & Hdb & _)
             | (_ & uid & artigo & roteiro & _ & Hdb & _)]]]];
    rewrite ?Hdb, ?Hc, ?Hu; simpl; try (now repeat split).
  - rewrite map_app; simpl.
    destruct (row_ids_snoc _ Hu1 Hu2) as [Hn Hp]. now repeat split.
  - rewrite map_app; simpl.
    destruct (row_ids_snoc _ Hc1 Hc2) as [Hn Hp]. now repeat split.
Qed.

Lemma main_keeps_session (db : database) (ss : session_state)
    (w : main_widgets) (env : environment) :
  session_identity db ss /\ results_of_session db ss ->
  session_identity (r_db (main db ss w env)) (r_session (main db ss w env))
  /\ results_of_session (r_db (main db ss w env))
       (r_session (main db ss w env)).
Proof.
  intros [Hid Hres].
  destruct (default_logged_in_fields ss) as (Hname & Huid & Hlast & Hlogged).
  destruct (main_step db ss w env)
    as [(Hanon & Hc & Hss & _ & _)
       | [(Hanon & Hdb & _ & uid & hashed & Hsel & Hss)
         | [(_ & Hdb & Hss & _)
           | [(_ & Hdb & Hss & _)
             | (Hin & uid & artigo & roteiro & Huser & Hdb & Hss & _)]]]];
    rewrite Hss; rewrite ?Hdb.
  - assert (Hout : logged_in ss <> Some true).
    { intro E. apply is_logged_in_true in E.
      unfold anonymous in Hanon. congruence. }
    split.
    + intro E. now apply Hlogged in E.
    + intros a r E. rewrite Hlast in E. now apply Hres in E.
  - assert (Hout : logged_in ss <> Some true).
    { intro E. apply is_logged_in_true in E.
      unfold anonymous in Hanon. congruence. }
    split.
    + intros _. apply select_user_row in Hsel.
      destruct Hsel as (r & Hr & Hrname & Hrid & _).
      exists r. simpl. repeat split; congruence.
    + intros a r. simpl. rewrite Hlast. intro E. now apply Hres in E.
  - split; [discriminate | intros a r; discriminate].
  - now split.
  - split.
    + intro E. simpl in E. destruct (Hid E) as (r & Hr & Hrname & Hrid).
      exists r. now repeat split.
    + intros a r. simpl. intros [= <- <-]. split; [exact Hin |].
      exists uid, (generated_row db uid (tema w) artigo roteiro ""
                     (current_timestamp env)).
      repeat split; [exact Huser |]. apply in_or_app. right. now left.
Qed.

(** X4.  Starting from the empty database and a fresh session, no run of
    the script ends in the [AttributeError] of a missing session key or in
    the [IntegrityError] of the contents insert, whatever the widgets hold
    and whatever the model answers: the session keys read at lines 130 and
    155 are always present when they are read.  A run that ends in an
    exception is the run of an anonymous session in which a bcrypt call
    raised. *)
Theorem reachable_run_never_raises
    (runs : list (main_widgets * environment)) (w : main_widgets)
    (env : environment) :
  let db := fst (run_script runs empty_db empty_session) in
  let ss := snd (run_script runs empty_db empty_session) in
  r_control (main db ss w env) <> Raises "AttributeError"
  /\ r_control (main db ss w env) <> Raises "IntegrityError"
  /\ (raised (r_control (main db ss w env)) = true ->
      anonymous ss /\ r_control (main db ss w env) = Raises "ValueError").
Proof.
  intros db ss.
  assert (Hid : session_identity db ss).
  { apply (run_script_invariant
             (fun db ss => session_identity db ss /\ results_of_session db ss)).
    - intros db' ss' w' env'. apply main_keeps_session.
    - split; [discriminate | intros a r; discriminate]. }
  assert (Hraised : raised (r_control (main db ss w env)) = true ->
                    anonymous ss
                    /\ r_control (main db ss w env) = Raises "ValueError").
  { destruct (main_step db ss w env)
      as [(Hanon & _ & _ & Hraise & _)
         | [(_ & _ & Hctl & _)
           | [(_ & _ & _ & Hctl)
             | [(Hin & _ & _ & Hraise)
               | (_ & uid & artigo & roteiro & _ & _ & _ & Hctl)]]]];
      try (rewrite Hctl; discriminate).
    - intro E. split; [exact Hanon | now apply Hraise].
    - intro E. destruct (Hid Hin) as (r & _ & Hname & Huid).
      destruct (Hraise E); congruence. }
  split; [| split; [| exact Hraised]].
  - intro E. assert (Hr : raised (r_control (main db ss w env)) = true)
      by now rewrite E.
    destruct (Hraised Hr) as [_ E']. rewrite E in E'. discriminate.
  - intro E. assert (Hr : raised (r_control (main db ss w env)) = true)
      by now rewrite E.
    destruct (Hraised Hr) as [_ E']. rewrite E in E'. discriminate.
Qed.

Lemma run_script_appends
    (runs : list (main_widgets * environment)) (db : database)
    (ss : session_state) :
  exists new_users new_contents,
    users (fst (run_script runs db ss)) = users db ++ new_users
    /\ contents (fst (run_script runs db ss)) = contents db ++ new_contents.
Proof.
  apply (run_script_invariant
           (fun db' _ => exists new_users new_contents,
                users db' = users db ++ new_users
                /\ contents db' = contents db ++ new_contents)).
  - intros db' ss' w env (lu & lc & Hu & Hc).
    destruct (main_appends db' ss' w env) as (lu' & lc' & Hu' & Hc').
    exists (lu ++ lu'), (lc ++ lc').
    now rewrite Hu', Hc', Hu, Hc, !app_assoc.
  - exists [], []. rewrite !app_nil_r. split; reflexivity.
Qed.

(** X5.  Both tables only grow: after any sequence of runs from any state,
    the users table and the contents table still begin with the rows they
    had, unchanged and in the same order. *)
Theorem tables_append_only
    (runs : list (main_widgets * environment)) (db : database)
    (ss : session_state) :
  exists new_users new_contents,
    users (fst (run_script runs db ss)) = users db ++ new_users
    /\ contents (fst (run_script runs db ss)) = contents db ++ new_contents.
Proof. apply run_script_appends. Qed.

(** A run leaves the contents table as it is or appends one row with the
    topic typed, which is not empty, and empty captions. *)
Lemma main_contents_rows (db : database) (ss : session_state)
    (w : main_widgets) (env : environment) :
  contents (r_db (main db ss w env)) = contents db
  \/ exists uid artigo roteiro,
       tema w <> ""
       /\ contents (r_db (main db ss w env))
          = contents db
            ++ [generated_row db uid (tema w) artigo roteiro ""
                  (current_timestamp env)].
Proof.
  destruct (is_logged_in ss) eqn:Hgate.
  - apply is_logged_in_true in Hgate.
    rewrite (main_logged_in _ _ _ _ Hgate).
    destruct (username ss); [| now left].
    destruct (sair w); [now left |].
    destruct (generate_button_cases db ss w env)
      as [(Hdb & _) | (uid & artigo & roteiro & _ & _ & Htema & Hdb & _)].
    + left. now rewrite Hdb.
    + right. exists uid, artigo, roteiro. now rewrite Hdb.
  - left. rewrite (main_anonymous _ _ _ _ Hgate). apply login_page_contents.
Qed.

(** X16.  In every store reached from the empty database no user name is
    empty, and every content row has a non-empty topic and empty
    captions. *)
Theorem reachable_rows_wellformed
    (runs : list (main_widgets * environment)) :
  rows_wellformed (fst (run_script runs empty_db empty_session)).
Proof.
  apply (run_script_invariant (fun db _ => rows_wellformed db)).
  - intros db ss w env [Hu Hc]. split.
    + rewrite main_users.
      destruct (login_page_users db ss (login_form w) (gensalt env))
        as [-> | (hashed & Hname & _ & _ & _ & ->)]; [exact Hu |].
      apply Forall_app. split; [exact Hu | now repeat constructor].
    + destruct (main_contents_rows db ss w env)
        as [-> | (uid & artigo & roteiro & Htema & ->)]; [exact Hc |].
      apply Forall_app. split; [exact Hc | now repeat constructor].
  - split; constructor.
Qed.

(** X7.  In every store reached from the empty database the ids of the
    users rows are positive and pairwise distinct, and so are the ids of
    the contents rows. *)
Theorem reachable_row_ids_distinct
    (runs : list (main_widgets * environment)) :
  row_ids_distinct (fst (run_script runs empty_db empty_session)).
Proof.
  apply (run_script_invariant (fun db _ => row_ids_distinct db)).
  - intros db ss w env. apply main_keeps_row_ids.
  - repeat split; constructor.
Qed.

(** X11.  In every state reached from the empty database, a logged-in
    session carries the user name and the id of one and the same row of
    the users table. *)
Theorem reachable_session_identity
    (runs : list (main_widgets * environment)) :
  session_identity (fst (run_script runs empty_db empty_session))
                   (snd (run_script runs empty_db empty_session)).
Proof.
  apply (run_script_invariant
           (fun db ss => session_identity db ss /\ results_of_session db ss)).
  - intros db ss w env. apply main_keeps_session.
  - split; [discriminate | intros a r; discriminate].
Qed.

(** X12.  In every state reached from the empty database, the texts kept
    for the results panel are the article and the script of a content row
    owned by the user who is logged in; an anonymous session keeps none. *)
Theorem reachable_results_of_session
    (runs : list (main_widgets * environment)) :
  results_of_session (fst (run_script runs empty_db empty_session))
                     (snd (run_script runs empty_db empty_session)).
Proof.
  apply (run_script_invariant
           (fun db ss => session_identity db ss /\ results_of_session db ss)).
  - intros db ss w env. apply main_keeps_session.
  - split; [discriminate | intros a r; discriminate].
Qed.

End StateInvariants.

(** ** Whole runs: content generation *)

Lemma prefix_spec (needle hay : string) :
  String.prefix needle hay = true
  <-> exists after, hay = (needle ++ after)%string.
Proof.
  revert hay. induction needle as [| a needle IH]; intro hay.
  - split; [intros _; now exists hay | now destruct hay].
  - destruct hay as [| b hay]; simpl.
    + split; [discriminate | intros [after [=]]].
    + destruct (ascii_dec a b) as [<- | Hneq].
      * rewrite IH. split; intros [after E]; exists after; congruence.
      * split; [discriminate | intros [after [= E _]]; congruence].
Qed.

(** [contains] is the substring test. *)
Lemma contains_spec (needle hay : string) :
  contains needle hay = true
  <-> exists before after, hay = (before ++ needle ++ after)%string.
Proof.
  induction hay as [| c hay IH]; cbn [contains].
  - rewrite orb_false_r, prefix_spec. split.
    + intros [after E]. now exists "", after.
    + intros (before & after & E). destruct before; [| discriminate].
      now exists after.
  - rewrite orb_true_iff, IH, prefix_spec. split.
    + intros [[after E] | (before & after & E)].
      * now exists "", after.
      * exists (String c before), after. simpl. congruence.
    + intros (before & after & E). destruct before as [| b before].
      * left. now exists after.
      * right. injection E as _ E. now exists before, after.
Qed.

(** The two texts when the model answers the article prompt. *)
Lemma generate_texts_answered (env : environment) (w : main_widgets)
    (text : string) :
  ai env (prompt_artigo w) = ai_text text ->
  generate_texts env w
  = if contains "ERRO_IA:" text
    then (text, roteiro_placeholder, [], [prompt_artigo w])
    else (text,
          fst (generate_content env (prompt_roteiro text)),
          snd (generate_content env (prompt_roteiro text)),
          [prompt_artigo w; prompt_roteiro text]).
Proof.
  intro Hanswer. unfold generate_texts.
  destruct (generate_content env (prompt_artigo w)) as [artigo shown1] eqn:H1.
  unfold generate_content in H1. rewrite Hanswer in H1.
  injection H1 as <- <-.
  destruct (contains "ERRO_IA:" text); simpl; [reflexivity |].
  now destruct (generate_content env (prompt_roteiro text)).
Qed.

(** The button handler, pressed with a topic in a session that has its
    [user_id]. *)
Lemma generate_button_pressed (db : database) (ss : session_state)
    (w : main_widgets) (env : environment) (uid : Z) :
  user_id ss = Some uid -> gerar w = true -> tema w <> "" ->
  generate_button db ss w env
  = let '(artigo, roteiro, shown, calls) := generate_texts env w in
    {| r_db := {| users := users db;
                  contents := contents db
                    ++ [generated_row db uid (tema w) artigo roteiro ""
                          (current_timestamp env)] |};
       r_session := set_last_generated ss artigo roteiro;
       r_messages := shown; r_ai_calls := calls; r_history := None;
       r_control := Rerun |}.
Proof.
  intros Huid Hgerar Htema. apply truthy_true_iff in Htema.
  unfold generate_button. rewrite Hgerar, Htema.
  destruct (generate_texts env w) as [[[artigo roteiro] shown] calls].
  now rewrite Huid.
Qed.

Lemma select_history_after_insert_other (db : database) (uid other : Z)
    (c : contents_row) :
  contents_user_id c = uid -> other <> uid ->
  select_history {| users := users db; contents := contents db ++ [c] |} other
  = select_history db other.
Proof.
  intros Howner Hother. unfold select_history, select_rows; simpl.
  rewrite filter_app; simpl. rewrite Howner.
  replace (uid =? other) with false by (symmetry; apply Z.eqb_neq; congruence).
  now rewrite app_nil_r.
Qed.

Lemma select_history_In (db : database) (uid : Z) (c : contents_row) :
  In c (contents db) -> contents_user_id c = uid ->
  In (contents_tema c, contents_created_at c) (select_history db uid).
Proof.
  intros Hin Howner. unfold select_history.
  apply (in_map (fun r => (contents_tema r, contents_created_at r))).
  apply (Permutation_in _ (Permutation_sym (select_rows_perm db uid))).
  apply filter_In. split; [exact Hin | now apply Z.eqb_eq].
Qed.

Lemma insert_desc_earliest (r : contents_row) (l : list contents_row) :
  Forall (fun c => contents_created_at r < contents_created_at c) l ->
  insert_desc r l = l ++ [r].
Proof.
  induction 1 as [| x rest Hx Hrest IH]; simpl; [reflexivity |].
  destruct (contents_created_at x <=? contents_created_at r) eqn:Hcmp.
  - apply Z.leb_le in Hcmp. lia.
  - now rewrite IH.
Qed.

(** Rows scanned in strictly increasing timestamp order come out
    reversed. *)
Lemma order_by_created_at_desc_increasing (l : list contents_row) :
  StronglySorted
    (fun a b => contents_created_at a < contents_created_at b) l ->
  order_by_created_at_desc l = rev l.
Proof.
  unfold order_by_created_at_desc.
  induction 1 as [| x rest Hsorted IH Hall]; simpl; [reflexivity |].
  rewrite IH. apply insert_desc_earliest.
  rewrite Forall_forall in *. intros c Hin. apply Hall. now apply in_rev.
Qed.

Section Generation.
Context {B : Bcrypt}.

(** X8.  When the model answers both prompts and the article does not
    hold the marker, a press of the button with a topic sends the article
    prompt and then the script prompt built from the article, appends one
    row with the topic, the two answers, empty captions and the user id of
    the session, keeps the two answers for the results panel, shows no
    message and reruns. *)
Theorem generate_stores_both_texts
    (db : database) (ss : session_state) (w : main_widgets)
    (env : environment) (uid : Z) (artigo roteiro : string) :
  authenticated ss -> user_id ss = Some uid ->
  sair w = false -> gerar w = true -> tema w <> "" ->
  ai env (prompt_artigo w) = ai_text artigo ->
  contains "ERRO_IA:" artigo = false ->
  ai env (prompt_roteiro artigo) = ai_text roteiro ->
  main db ss w env
  = {| r_db := {| users := users db;
                  contents := contents db
                    ++ [generated_row db uid (tema w) artigo roteiro ""
                          (current_timestamp env)] |};
       r_session := set_last_generated ss artigo roteiro;
       r_messages := [];
       r_ai_calls := [prompt_artigo w; prompt_roteiro artigo];
       r_history := None; r_control := Rerun |}.
Proof.
  intros (Hin & Hname & _) Huid Hsair Hgerar Htema Hart Hmark Hrot.
  rewrite (main_logged_in _ _ _ _ Hin), Hsair.
  destruct (username ss); [| congruence].
  rewrite (generate_button_pressed _ _ _ _ _ Huid Hgerar Htema).
  rewrite (generate_texts_answered _ _ _ Hart), Hmark.
  unfold generate_content. now rewrite Hrot.
Qed.

(** X9.  A press of the button with a topic skips the script prompt
    exactly when the model answered the article prompt with a text that
    holds "ERRO_IA:" somewhere; the row it then stores has the placeholder
    of line 151 as its script. *)
Theorem placeholder_iff_marker
    (db : database) (ss : session_state) (w : main_widgets)
    (env : environment) :
  authenticated ss ->
  sair w = false -> gerar w = true -> tema w <> "" ->
  let r := main db ss w env in
  ((exists text, ai env (prompt_artigo w) = ai_text text /\ has_marker text)
   <-> r_ai_calls r = [prompt_artigo w])
  /\ (r_ai_calls r = [prompt_artigo w] ->
      exists c, contents (r_db r) = contents db ++ [c]
                /\ contents_roteiro c = roteiro_placeholder).
Proof.
  intros (Hin & Hname & Huid) Hsair Hgerar Htema r. unfold r.
  rewrite (main_logged_in _ _ _ _ Hin), Hsair.
  destruct (username ss); [| congruence].
  destruct (user_id ss) as [uid |] eqn:Huser; [| congruence].
  rewrite (generate_button_pressed _ _ _ _ _ Huser Hgerar Htema).
  destruct (ai env (prompt_artigo w)) as [text | e] eqn:Hart.
  - rewrite (generate_texts_answered _ _ _ Hart).
    destruct (contains "ERRO_IA:" text) eqn:Hmark; simpl.
    + split.
      * split; [reflexivity |]. intros _. exists text.
        split; [reflexivity | now apply contains_spec].
      * intros _. now eexists.
    + split.
      * split; [| discriminate].
        intros (text' & [= <-] & Hhas). apply contains_spec in Hhas.
        congruence.
      * discriminate.
  - rewrite (generate_texts_article_failure _ _ _ Hart); simpl.
    split; [| discriminate].
    split; [intros (text & [=] & _) | discriminate].
Qed.

(** X10.  After a press of the button with a topic, whatever the model
    did, the next run of the same session that presses nothing shows a
    history that holds the new topic with its timestamp, writes nothing
    and still has the two texts for the results panel. *)
Theorem generated_topic_in_history
    (db : database) (ss : session_state) (w w' : main_widgets)
    (env env' : environment) (uid : Z) :
  authenticated ss -> user_id ss = Some uid ->
  sair w = false -> gerar w = true -> tema w <> "" ->
  sair w' = false -> gerar w' = false ->
  let r := main db ss w env in
  let r' := main (r_db r) (r_session r) w' env' in
  r_control r = Rerun
  /\ r_db r' = r_db r
  /\ r_history r' = Some (select_history (r_db r) uid)
  /\ In (tema w, current_timestamp env) (select_history (r_db r) uid)
  /\ last_generated (r_session r') = last_generated (r_session r)
  /\ last_generated (r_session r) <> None.
Proof.
  intros (Hin & Hname & _) Huid Hsair Hgerar Htema Hsair' Hgerar' r r'.
  unfold r', r.
  rewrite (main_logged_in _ _ _ _ Hin), Hsair.
  destruct (username ss) as [name |] eqn:Huser; [| congruence].
  rewrite (generate_button_pressed _ _ _ _ _ Huid Hgerar Htema).
  destruct (generate_texts env w) as [[[artigo roteiro] shown] calls].
  cbn [r_db r_session r_control].
  rewrite main_logged_in by exact Hin.
  cbn [username set_last_generated]. rewrite Huser, Hsair'.
  unfold generate_button. rewrite Hgerar'.
  cbn [r_db r_session r_history last_generated set_last_generated].
  unfold history. cbn [user_id set_last_generated]. rewrite Huid.
  repeat split; try discriminate.
  apply (select_history_In _ uid
           (generated_row db uid (tema w) artigo roteiro ""
              (current_timestamp env))); [| reflexivity].
  simpl. apply in_or_app. right. now left.
Qed.

(** X13.  A login that is accepted in an anonymous session writes nothing
    and sends no prompt; it puts the user name typed and the id of that
    user's row into the session, and from then on [login_page] lets the
    session through whatever the forms hold. *)
Theorem login_run_authenticates
    (db : database) (ss : session_state) (w : main_widgets)
    (env : environment) (uid : Z) (hashed : bytes) :
  anonymous ss ->
  choice (login_form w) = ChoiceLogin -> submitted (login_form w) = true ->
  select_user db (text_username (login_form w)) = Some (uid, hashed) ->
  checkpw (encode_utf8 (text_password (login_form w))) hashed = Some true ->
  let r := main db ss w env in
  r = {| r_db := db;
         r_session := set_logged_in (default_logged_in ss)
                        (text_username (login_form w)) uid;
         r_messages := []; r_ai_calls := []; r_history := None;
         r_control := Rerun |}
  /\ authenticated (r_session r)
  /\ forall (db' : database) (f : login_widgets) (salt : bytes),
       login_page db' (r_session r) f salt
       = {| lr_db := db'; lr_session := r_session r; lr_messages := [];
            lr_control := Returns true |}.
Proof.
  intros Hanon Hchoice Hsub Hsel Hcheck r.
  assert (Hr : r = {| r_db := db;
                      r_session := set_logged_in (default_logged_in ss)
                                     (text_username (login_form w)) uid;
                      r_messages := []; r_ai_calls := []; r_history := None;
                      r_control := Rerun |}).
  { unfold r. rewrite (main_anonymous _ _ _ _ Hanon).
    unfold login_page.
    rewrite (default_logged_in_anonymous ss Hanon), Hchoice, Hsub, Hsel.
    simpl. now rewrite Hcheck. }
  rewrite Hr. cbn [r_session].
  split; [reflexivity |].
  split; [repeat split; discriminate |].
  intros db' f salt. now apply login_page_logged_in.
Qed.

(** X6.  An account keeps its id and its password: once a user name is
    registered, after any further runs of the script, in any session, the
    login form still accepts that user name with the password it was
    registered with and logs in under the id given at registration.  The
    bcrypt contract is assumed: [checkpw] accepts the password a hash was
    made from. *)
Theorem registered_login_persists
    (Haccepts : checkpw_accepts)
    (db : database) (ss ss1 ss2 : session_state) (name password : string)
    (salt hashed : bytes) (runs : list (main_widgets * environment)) :
  anonymous ss -> anonymous ss2 ->
  name <> "" -> password <> "" ->
  username_taken db name = false ->
  hashpw (encode_utf8 password) salt = Some hashed ->
  let db1 := lr_db (register db ss name password salt) in
  let db2 := fst (run_script runs db1 ss1) in
  verify db2 ss2 name password
  = {| lr_db := db2;
       lr_session := set_logged_in (default_logged_in ss2) name
                       (next_rowid (map users_id (users db)));
       lr_messages := []; lr_control := Rerun |}.
Proof.
  intros Hanon Hanon2 Hname Hpassword Hfresh Hhash db1 db2.
  assert (Hsel1 : select_user db1 name
                  = Some (next_rowid (map users_id (users db)), hashed)).
  { apply select_user_after_insert.
    unfold db1. rewrite (register_anonymous _ _ _ _ _ Hanon).
    apply truthy_true_iff in Hname. apply truthy_true_iff in Hpassword.
    rewrite Hname, Hpassword, Hhash; simpl.
    now rewrite !(insert_user_fresh _ _ _ Hfresh). }
  destruct (run_script_appends runs db1 ss1) as (lu & _ & Hgrow & _).
  fold db2 in Hgrow.
  rewrite (verify_anonymous _ _ _ _ Hanon2).
  rewrite (select_user_grows db1 db2 lu _ _ _ Hgrow Hsel1).
  now rewrite (Haccepts _ _ _ Hhash).
Qed.

End Generation.

(** X14.  A row written for one user leaves the history of every other
    user as it was. *)
Theorem history_of_others_unchanged
    (db db' : database) (uid other : Z)
    (tema artigo roteiro legendas : string) (now : Z) :
  insert_content connect db uid tema artigo roteiro legendas now = SqlOk db' ->
  other <> uid ->
  select_history db' other = select_history db other.
Proof.
  rewrite insert_content_connect. intros [= <-] Hother.
  now apply select_history_after_insert_other with (uid := uid).
Qed.

(** X15.  When the rows of a user were written at strictly increasing
    timestamps, the history of that user lists them from the last written
    to the first. *)
Theorem history_reverse_insertion_order (db : database) (uid : Z) :
  StronglySorted
    (fun a b => contents_created_at a < contents_created_at b)
    (filter (fun r => contents_user_id r =? uid) (contents db)) ->
  select_history db uid
  = rev (map (fun r => (contents_tema r, contents_created_at r))
           (filter (fun r => contents_user_id r =? uid) (contents db))).
Proof.
  intro Hsorted. unfold select_history, select_rows.
  rewrite (order_by_created_at_desc_increasing _ Hsorted).
  apply map_rev.
Qed.

(** ** The sample session, continued *)

(** Alice presses the logout button together with the generation button. *)
Lemma logout_clears_session_witness :
  authenticated sample_session
  /\ r_session (@main toy_bcrypt sample_db sample_session sample_logout
                  (sample_env 30)) = empty_session
  /\ r_db (@main toy_bcrypt sample_db sample_session sample_logout
             (sample_env 30)) = sample_db.
Proof.
  split; [exact sample_session_authenticated |].
  destruct (logout_clears_session (B := toy_bcrypt) sample_db sample_session
              sample_logout (sample_env 30) sample_session_authenticated
              eq_refl) as [Hrun _].
  rewrite Hrun. split; reflexivity.
Defined.

(** The generation button pressed without a login. *)
Lemma anonymous_run_is_inert_witness :
  anonymous empty_session
  /\ r_ai_calls (@main toy_bcrypt sample_db empty_session
                   (sample_generate "t") (sample_env 30)) = []
  /\ r_db (@main toy_bcrypt sample_db empty_session (sample_generate "t")
             (sample_env 30)) = sample_db.
Proof.
  split; [reflexivity |].
  destruct (anonymous_run_is_inert (B := toy_bcrypt) sample_db empty_session
              (sample_generate "t") (sample_env 30) eq_refl)
    as (Hcalls & _ & _ & _ & Hdb).
  split; [exact Hcalls | exact (Hdb eq_refl)].
Defined.

(** Bob's registration form, submitted inside Alice's session. *)
Lemma logged_in_run_ignores_forms_witness :
  logged_in sample_session = Some true
  /\ users (r_db (@main toy_bcrypt sample_db sample_session
                    sample_register_bob (sample_env 30)))
     = users sample_db.
Proof.
  split; [reflexivity |].
  exact (proj2 (logged_in_run_ignores_forms (B := toy_bcrypt) sample_db
                  sample_session sample_register_bob idle_form
                  (sample_env 30) eq_refl)).
Defined.

(** Alice logs in, Bob registers, and Alice's password still logs her in
    under id 1. *)
Lemma registered_login_persists_witness :
  user_id
    (lr_session
       (@verify toy_bcrypt
          (fst (@run_script toy_bcrypt
                  [(sample_login, sample_env 20);
                   (sample_logout, sample_env 25);
                   (sample_register_bob, sample_env 30)]
                  (lr_db (@register toy_bcrypt empty_db empty_session
                            "alice" "secret1" "s"))
                  empty_session))
          empty_session "alice" "secret1"))
  = Some 1.
Proof.
  rewrite (registered_login_persists (B := toy_bcrypt) toy_checkpw_accepts
             empty_db empty_session empty_session empty_session
             "alice" "secret1" "s" "ssecret1"
             [(sample_login, sample_env 20); (sample_logout, sample_env 25);
              (sample_register_bob, sample_env 30)]
             eq_refl eq_refl ltac:(discriminate) ltac:(discriminate) eq_refl
             eq_refl).
  reflexivity.
Defined.

(** Alice generates with a model that writes. *)
Lemma generate_stores_both_texts_witness :
  authenticated sample_session
  /\ contents (r_db (@main toy_bcrypt sample_db sample_session
                       (sample_generate "t") (writing_env 30)))
     = [{| contents_id := 1; contents_user_id := 1; contents_tema := "t";
           contents_artigo := "ARTIGO"; contents_roteiro := "ROTEIRO";
           contents_legendas := ""; contents_created_at := 30 |}].
Proof.
  split; [exact sample_session_authenticated |].
  rewrite (generate_stores_both_texts (B := toy_bcrypt) sample_db
             sample_session (sample_generate "t") (writing_env 30) 1
             "ARTIGO" "ROTEIRO" sample_session_authenticated eq_refl eq_refl
             eq_refl ltac:(discriminate) eq_refl eq_refl eq_refl).
  reflexivity.
Defined.

(** Alice generates with a model whose article carries the marker. *)
Lemma placeholder_iff_marker_witness :
  authenticated sample_session
  /\ r_ai_calls (@main toy_bcrypt sample_db sample_session
                   (sample_generate "t") (marking_env 30))
     = [prompt_artigo (sample_generate "t")]
  /\ exists c,
       contents (r_db (@main toy_bcrypt sample_db sample_session
                         (sample_generate "t") (marking_env 30)))
       = contents sample_db ++ [c]
       /\ contents_roteiro c = roteiro_placeholder.
Proof.
  split; [exact sample_session_authenticated |].
  destruct (placeholder_iff_marker (B := toy_bcrypt) sample_db
              sample_session (sample_generate "t") (marking_env 30)
              sample_session_authenticated eq_refl eq_refl
              ltac:(discriminate)) as [Hiff Hrow].
  assert (Hcalls : r_ai_calls (@main toy_bcrypt sample_db sample_session
                                 (sample_generate "t") (marking_env 30))
                   = [prompt_artigo (sample_generate "t")]).
  { apply Hiff. exists "ERRO_IA: sem resposta". split; [reflexivity |].
    exists "", " sem resposta". reflexivity. }
  split; [exact Hcalls | exact (Hrow Hcalls)].
Defined.

(** Alice generates, and the next run shows the topic. *)
Lemma generated_topic_in_history_witness :
  authenticated sample_session
  /\ r_history
       (@main toy_bcrypt
          (r_db (@main toy_bcrypt sample_db sample_session
                   (sample_generate "t") (writing_env 30)))
          (r_session (@main toy_bcrypt sample_db sample_session
                        (sample_generate "t") (writing_env 30)))
          sample_idle (writing_env 31))
     = Some [("t", 30)].
Proof.
  split; [exact sample_session_authenticated |].
  destruct (generated_topic_in_history (B := toy_bcrypt) sample_db
              sample_session (sample_generate "t") sample_idle
              (writing_env 30) (writing_env 31) 1
              sample_session_authenticated eq_refl eq_refl eq_refl
              ltac:(discriminate) eq_refl eq_refl)
    as (_ & _ & Hhistory & _).
  rewrite Hhistory. reflexivity.
Defined.

(** Alice's login run on the sample store. *)
Lemma login_run_authenticates_witness :
  anonymous empty_session
  /\ r_session (@main toy_bcrypt sample_db empty_session sample_login
                  (sample_env 20)) = sample_session.
Proof.
  split; [reflexivity |].
  destruct (login_run_authenticates (B := toy_bcrypt) sample_db empty_session
              sample_login (sample_env 20) 1 "ssecret1"
              eq_refl eq_refl eq_refl eq_refl eq_refl) as [Hrun _].
  rewrite Hrun. reflexivity.
Defined.

(** A row written for user 2 leaves Alice's history as it was. *)
Lemma history_of_others_unchanged_witness :
  select_history
    {| users := users sample_db_one_row;
       contents := contents sample_db_one_row
         ++ [generated_row sample_db_one_row 2 "c" "artigo c" "roteiro c" ""
               200] |} 1
  = [("a", 100)].
Proof.
  exact (history_of_others_unchanged sample_db_one_row _ 2 1
           "c" "artigo c" "roteiro c" "" 200 eq_refl ltac:(discriminate)).
Defined.

(** Alice's two rows, written at 100 and 101. *)
Lemma history_reverse_insertion_order_witness :
  select_history sample_db_two_rows 1 = [("b", 101); ("a", 100)].
Proof.
  rewrite (history_reverse_insertion_order sample_db_two_rows 1).
  - reflexivity.
  - simpl. repeat constructor.
Defined.
